(** * sign_server.py: retry, readiness and validation behaviour

    A shallow embedding of [src/sign_server.py].  The program is a Flask
    application that drives one headless browser page and relays the result
    of a JavaScript signing function.  Everything the program does with the
    outside (browser, network, file system, clock) goes through an
    environment of oracles indexed by the number of external calls made so
    far; the module-level globals and the file system are an explicit state;
    every function is a computation that returns the new state, the effects
    it performed, in order, and either a value or a raised exception. *)

From Stdlib Require Import ZArith List Lia DecimalString.
From stdpp Require Import gmap strings.
Import ListNotations.

Open Scope string_scope.
Open Scope list_scope.
Set Warnings "-register-all".

(** ** Python values *)

(** A Python float is kept abstract: only its truth value and its printed
    form are observable in this program. *)
Record pyfloat := PyFloat { float_nonzero : bool; float_str : string }.

(** The values that JSON bodies and [page.evaluate] results range over.
    A dict is an association list; [dict_get] returns the first binding. *)
Inductive pyval :=
| PNone
| PBool (b : bool)
| PInt (z : Z)
| PFloat (f : pyfloat)
| PStr (s : string)
| PList (l : list pyval)
| PDict (d : list (string * pyval)).

(** An exception: [type(e).__name__] and [str(e)]. *)
Record exn := Exn { exn_type : string; exn_msg : string }.

Definition Exception (msg : string) : exn := Exn "Exception" msg.
Definition TypeError (msg : string) : exn := Exn "TypeError" msg.
Definition AttributeError (msg : string) : exn := Exn "AttributeError" msg.

(** [bool(v)]. *)
Definition truthy (v : pyval) : bool :=
  match v with
  | PNone => false
  | PBool b => b
  | PInt z => negb (Z.eqb z 0)
  | PFloat f => float_nonzero f
  | PStr s => negb (String.eqb s "")
  | PList l => match l with [] => false | _ => true end
  | PDict d => match d with [] => false | _ => true end
  end.

(** [a or b]. *)
Definition py_or (a b : pyval) : pyval := if truthy a then a else b.

(** [type(v).__name__]. *)
Definition type_name (v : pyval) : string :=
  match v with
  | PNone => "NoneType"
  | PBool _ => "bool"
  | PInt _ => "int"
  | PFloat _ => "float"
  | PStr _ => "str"
  | PList _ => "list"
  | PDict _ => "dict"
  end.

Fixpoint dict_lookup (d : list (string * pyval)) (k : string) : option pyval :=
  match d with
  | [] => None
  | (k', v) :: rest => if String.eqb k' k then Some v else dict_lookup rest k
  end.

(** [d.get(k, default)]. *)
Definition dict_get (d : list (string * pyval)) (k : string) (default : pyval) : pyval :=
  match dict_lookup d k with Some v => v | None => default end.


Definition string_of_Z (z : Z) : string := NilZero.string_of_int (Z.to_int z).

Fixpoint string_take (n : nat) (s : string) : string :=
  match n, s with
  | S n', String c s' => String c (string_take n' s')
  | _, _ => EmptyString
  end.

(** ** Effects *)

(** Browser-side objects are opaque handles. *)
Definition handle := nat.

Inductive level := INFO | WARNING | ERROR.

(** The effects the program performs, in program order.  Durations are in
    milliseconds. *)
Inductive event :=
| EvLog (lvl : level)
| EvHttpGet (url : string)
| EvFileWrite (path content : string)
| EvPlaywrightStart
| EvLaunch (pw : handle)
| EvNewContext (browser : handle)
| EvAddInitScript (ctx : handle) (path : string)
| EvNewPage (ctx : handle)
| EvGoto (page : handle) (url : string)
| EvCookies (ctx : handle)
| EvEvaluate (page : handle) (uri data : pyval)
| EvSleep (ms : nat)
| EvClock
| EvAssignA1 (v : string).

Inductive outcome (A : Type) :=
| Returned (a : A)
| Raised (e : exn).
Arguments Returned {A} a.
Arguments Raised {A} e.

(** What [open(path, 'w')] followed by [f.write(text)] can do: succeed, or
    raise, leaving no file, or a truncated one, behind. *)
Inductive write_outcome :=
| Written
| WriteFailed (e : exn) (left_behind : option string).

(** The outside world.  Each oracle takes the number of external calls the
    process has made so far, so that the same call can behave differently
    at different moments. *)
Record Env := {
  (** [requests.get(url, timeout=30)], [raise_for_status()], [.text] *)
  requests_get : nat -> string -> outcome string;
  file_write : nat -> string -> string -> write_outcome;
  sync_playwright_start : nat -> outcome handle;
  chromium_launch : nat -> handle -> outcome handle;
  browser_new_context : nat -> handle -> outcome handle;
  context_add_init_script : nat -> handle -> string -> outcome unit;
  context_new_page : nat -> handle -> outcome handle;
  page_goto : nat -> handle -> string -> outcome unit;
  (** [browser_context.cookies()]: (name, value) pairs *)
  context_cookies : nat -> handle -> outcome (list (string * string));
  (** [page.evaluate("([url, data]) => window._webmsxyw(url, data)", [uri, data])] *)
  page_evaluate : nat -> handle -> pyval -> pyval -> outcome pyval;
  time_time : nat -> pyfloat;
  (** [repr] of a list or a dict *)
  py_repr : pyval -> string;
  (** what slicing a dict raises (it depends on the interpreter version) *)
  dict_slice_error : exn;
  (** [str] of the InternalServerError that Flask builds around an
      exception no handler caught *)
  unhandled_text : exn -> string;
  (** the page Werkzeug renders for a response the framework makes by
      itself, by status code (405, 308) *)
  framework_page : nat -> string
}.

(** The globals of the module, the file system and the call counter. *)
Record world := World {
  playwright_instance : option handle;
  browser_context : option handle;
  context_page : option handle;
  global_a1 : string;
  files : gmap string string;
  ticks : nat
}.

(** The state of a freshly started process in a directory holding [fs]. *)
Definition initial_world (fs : gmap string string) : world :=
  World None None None "" fs 0.

Record run (A : Type) := Run {
  run_world : world;
  run_events : list event;
  run_outcome : outcome A
}.
Arguments Run {A} _ _ _.
Arguments run_world {A} _.
Arguments run_events {A} _.
Arguments run_outcome {A} _.

Definition M (A : Type) : Type := world -> run A.

Definition ret {A} (a : A) : M A := fun w => Run w [] (Returned a).
Definition raise {A} (e : exn) : M A := fun w => Run w [] (Raised e).

Definition bind {A B} (m : M A) (k : A -> M B) : M B :=
  fun w =>
    let r := m w in
    match run_outcome r with
    | Returned a =>
        let r' := k a (run_world r) in
        Run (run_world r') (run_events r ++ run_events r') (run_outcome r')
    | Raised e => Run (run_world r) (run_events r) (Raised e)
    end.

(** [try: m except Exception as e: h e] *)
Definition try_except {A} (m : M A) (h : exn -> M A) : M A :=
  fun w =>
    let r := m w in
    match run_outcome r with
    | Returned a => r
    | Raised e =>
        let r' := h e (run_world r) in
        Run (run_world r') (run_events r ++ run_events r') (run_outcome r')
    end.

Declare Scope py_scope.
Delimit Scope py_scope with py.
Notation "'let*' x := m 'in' k" := (bind m (fun x => k))
  (at level 10, x name, m at level 100, k at level 200) : py_scope.
Notation "m ;; k" := (bind m (fun _ => k))
  (at level 100, k at level 200, right associativity) : py_scope.
Open Scope py_scope.

Definition emit (ev : event) : M unit := fun w => Run w [ev] (Returned tt).
Definition log (lvl : level) : M unit := emit (EvLog lvl).
Definition sleep (ms : nat) : M unit := emit (EvSleep ms).
Definition get_world : M world := fun w => Run w [] (Returned w).
Definition lift {A} (o : outcome A) : M A := fun w => Run w [] o.

Definition tick (w : world) : world :=
  World (playwright_instance w) (browser_context w) (context_page w)
        (global_a1 w) (files w) (S (ticks w)).

(** One call out of the process: it is recorded, counted, and answered by
    the oracle. *)
Definition external {A} (ev : event) (oracle : nat -> outcome A) : M A :=
  fun w => Run (tick w) [ev] (oracle (ticks w)).

Definition set_playwright_instance (h : handle) : M unit :=
  fun w => Run (World (Some h) (browser_context w) (context_page w)
                      (global_a1 w) (files w) (ticks w)) [] (Returned tt).
Definition set_browser_context (h : handle) : M unit :=
  fun w => Run (World (playwright_instance w) (Some h) (context_page w)
                      (global_a1 w) (files w) (ticks w)) [] (Returned tt).
Definition set_context_page (h : handle) : M unit :=
  fun w => Run (World (playwright_instance w) (browser_context w) (Some h)
                      (global_a1 w) (files w) (ticks w)) [] (Returned tt).
Definition set_global_a1 (v : string) : M unit :=
  fun w => Run (World (playwright_instance w) (browser_context w) (context_page w)
                      v (files w) (ticks w)) [EvAssignA1 v] (Returned tt).

(** ** The anti-fingerprint script: [download_stealth_js] *)

Definition stealth_js_path : string := "stealth.min.js".

Definition cdn_urls : list string :=
  [ "https://cdn.jsdelivr.net/gh/requireCool/stealth.min.js/stealth.min.js";
    "https://fastly.jsdelivr.net/gh/requireCool/stealth.min.js/stealth.min.js";
    "https://raw.githubusercontent.com/requireCool/stealth.min.js/main/stealth.min.js" ].

(** [os.path.exists(path)] *)
Definition path_exists (path : string) : M bool :=
  fun w => Run w [] (Returned (bool_decide (is_Some (files w !! path)))).

(** [with open(path, 'w', encoding='utf-8') as f: f.write(text)] *)
Definition write_file (E : Env) (path text : string) : M unit :=
  fun w =>
    match file_write E (ticks w) path text with
    | Written =>
        Run (World (playwright_instance w) (browser_context w) (context_page w)
                   (global_a1 w) (<[path := text]> (files w)) (S (ticks w)))
            [EvFileWrite path text] (Returned tt)
    | WriteFailed e left_behind =>
        Run (World (playwright_instance w) (browser_context w) (context_page w)
                   (global_a1 w)
                   (match left_behind with
                    | Some partial => <[path := partial]> (files w)
                    | None => files w
                    end)
                   (S (ticks w)))
            [EvFileWrite path text] (Raised e)
    end.

(** The body of the [for idx, url in enumerate(cdn_urls)] loop, with its
    [try]/[except]: [Some path] when the function returns from inside the
    loop, [None] when the loop goes on to the next mirror. *)
Definition download_from (E : Env) (idx : nat) (url : string) : M (option string) :=
  try_except
    (log INFO;;
     log INFO;;
     let* text := external (EvHttpGet url) (fun t => requests_get E t url) in
     if Nat.ltb (String.length text) 100
     then log WARNING;; ret None
     else
       write_file E stealth_js_path text;;
       log INFO;;
       ret (Some stealth_js_path))
    (fun e =>
       log WARNING;;
       (if Nat.ltb idx (length cdn_urls - 1) then log INFO else ret tt);;
       ret None).

Fixpoint download_loop (E : Env) (idx : nat) (urls : list string) : M (option string) :=
  match urls with
  | [] =>
      log ERROR;;
      log WARNING;;
      log WARNING;;
      ret None
  | url :: rest =>
      let* got := download_from E idx url in
      match got with
      | Some path => ret (Some path)
      | None => download_loop E (S idx) rest
      end
  end.

Definition download_stealth_js (E : Env) : M (option string) :=
  let* present := path_exists stealth_js_path in
  if present
  then log INFO;; ret (Some stealth_js_path)
  else download_loop E 0 cdn_urls.

(** ** The browser session: [init_browser] and [ensure_browser] *)

Definition home_url : string := "https://www.xiaohongshu.com".

(** [for cookie in cookies: if cookie["name"] == "a1": ...; break] *)
Fixpoint capture_a1 (cookies : list (string * string)) : M unit :=
  match cookies with
  | [] => ret tt
  | (name, value) :: rest =>
      if String.eqb name "a1"
      then set_global_a1 value;; log INFO;; log INFO
      else capture_a1 rest
  end.

Definition init_browser (E : Env) : M unit :=
  try_except
    (log INFO;; log INFO;; log INFO;;
     let* stealth := download_stealth_js E in
     (match stealth with None => log WARNING | Some _ => ret tt end);;
     log INFO;;
     let* pw := external EvPlaywrightStart (sync_playwright_start E) in
     set_playwright_instance pw;;
     log INFO;;
     let* browser := external (EvLaunch pw) (fun t => chromium_launch E t pw) in
     let* ctx := external (EvNewContext browser)
                          (fun t => browser_new_context E t browser) in
     set_browser_context ctx;;
     (match stealth with
      | Some path =>
          external (EvAddInitScript ctx path)
                   (fun t => context_add_init_script E t ctx path);;
          log INFO
      | None => ret tt
      end);;
     let* page := external (EvNewPage ctx) (fun t => context_new_page E t ctx) in
     set_context_page page;;
     log INFO;;
     external (EvGoto page home_url) (fun t => page_goto E t page home_url);;
     log INFO;;
     sleep 1000;;
     let* cookies := external (EvCookies ctx) (fun t => context_cookies E t ctx) in
     capture_a1 cookies;;
     let* w := get_world in
     (if String.eqb (global_a1 w) "" then log WARNING else ret tt);;
     log INFO;; log INFO;; log INFO)
    (fun e => log ERROR;; raise e).

(** [@app.before_request] *)
Definition ensure_browser (E : Env) : M unit :=
  let* w := get_world in
  match context_page w with
  | None => log WARNING;; init_browser E
  | Some _ => ret tt
  end.

(** ** The signing engine: [generate_sign] *)

(** [str(v)] *)
Definition py_str (E : Env) (v : pyval) : string :=
  match v with
  | PNone => "None"
  | PBool true => "True"
  | PBool false => "False"
  | PInt z => string_of_Z z
  | PFloat f => float_str f
  | PStr s => s
  | PList _ | PDict _ => py_repr E v
  end.

(** [v[:n]] *)
Definition slice_prefix (E : Env) (n : nat) (v : pyval) : outcome pyval :=
  match v with
  | PStr s => Returned (PStr (string_take n s))
  | PList l => Returned (PList (firstn n l))
  | PDict _ => Raised (dict_slice_error E)
  | _ => Raised (TypeError ("'" ++ type_name v ++ "' object is not subscriptable"))
  end.

(** [context_page.evaluate(...)], on the global [context_page]: without a
    page, the attribute access on [None] raises before anything reaches the
    browser. *)
Definition evaluate_sign (E : Env) (uri data : pyval) : M pyval :=
  let* w := get_world in
  match context_page w with
  | None => raise (AttributeError "'NoneType' object has no attribute 'evaluate'")
  | Some page =>
      external (EvEvaluate page uri data) (fun t => page_evaluate E t page uri data)
  end.

(** The body of the [try] block of one attempt.  A value that is not a dict
    raises.  The signature is kept as the page gave it, the timestamp goes
    through [str].  The f-string of the second closing log record slices
    the signature, [x_s[:50]], which raises when it is neither a string nor
    a list; the record before it has been written by then. *)
Definition sign_attempt (E : Env) (uri data : pyval) : M pyval :=
  log INFO;;
  let* encrypt_params := evaluate_sign E uri data in
  log INFO;; log INFO;; log INFO;;
  match encrypt_params with
  | PDict d =>
      let x_s := py_or (py_or (dict_get d "X-s" PNone) (dict_get d "x-s" PNone)) (PStr "") in
      let x_t := py_or (py_or (dict_get d "X-t" PNone) (dict_get d "x-t" PNone)) (PStr "") in
      (if truthy x_s then ret tt else log WARNING);;
      (if truthy x_t then ret tt else log WARNING);;
      let result := PDict [("x-s", x_s); ("x-t", PStr (py_str E x_t))] in
      log INFO;;
      let* shown := lift (if truthy x_s then slice_prefix E 50 x_s
                          else Returned (PStr "(空)")) in
      log INFO;;
      log INFO;;
      ret result
  | _ =>
      raise (Exception ("签名函数返回值不是字典: <class '"
                        ++ type_name encrypt_params ++ "'>"))
  end.

(** One turn of the [for attempt in range(10)] loop, with its [try] and
    [except]: [Some result] when the function returns from inside the loop,
    [None] when the loop goes on to the next attempt. *)
Definition sign_once (E : Env) (attempt : nat) (uri data : pyval) : M (option pyval) :=
  try_except
    (let* result := sign_attempt E uri data in ret (Some result))
    (fun e =>
       let error_msg := exn_msg e in
       log WARNING;;
       if Nat.eqb attempt 9
       then log ERROR;; raise (Exception ("签名失败（重试10次）: " ++ error_msg))
       else log INFO;; sleep 500;; ret None).

Fixpoint sign_loop (E : Env) (attempts : list nat) (uri data : pyval) : M pyval :=
  match attempts with
  | [] => raise (Exception "重试了这么多次还是无法签名成功")
  | attempt :: rest =>
      let* got := sign_once E attempt uri data in
      match got with
      | Some result => ret result
      | None => sign_loop E rest uri data
      end
  end.

Definition generate_sign (E : Env) (uri data a1 web_session web_id : pyval) : M pyval :=
  sign_loop E (seq 0 10) uri data.

(** ** The HTTP layer *)

Record response := Response { status : nat; body : pyval }.

(** [jsonify(d)], with the default status *)
Definition jsonify (d : list (string * pyval)) : response := Response 200 (PDict d).

Definition web_a1 : M response :=
  let* w := get_world in
  log INFO;;
  ret (jsonify [("web_a1", PStr (global_a1 w))]).

Definition index : M response :=
  ret (jsonify
    [("service", PStr "XHS Signature Server");
     ("description", PStr "小红书 API 签名服务");
     ("status", PStr "running");
     ("version", PStr "1.0.0");
     ("endpoints", PDict
        [("health", PDict [("path", PStr "/health"); ("method", PStr "GET");
                           ("description", PStr "健康检查")]);
         ("sign", PDict [("path", PStr "/sign"); ("method", PStr "POST");
                         ("description", PStr "生成签名")])])]).

Definition health_check (E : Env) : M response :=
  let* w := get_world in
  let browser_ready := match context_page w with Some _ => true | None => false end in
  let* now := external EvClock (fun t => Returned (time_time E t)) in
  ret (Response (if browser_ready then 200 else 503)
         (PDict [("status", PStr (if browser_ready then "healthy" else "initializing"));
                 ("browser_ready", PBool browser_ready);
                 ("a1", PStr (if negb (String.eqb (global_a1 w) "")
                              then string_take 20 (global_a1 w) ++ "..."
                              else ""));
                 ("timestamp", PFloat now)])).

(** [json_data.get]: only a dict has the method. *)
Definition get_method (json_data : pyval) : outcome (list (string * pyval)) :=
  match json_data with
  | PDict d => Returned d
  | _ => Raised (AttributeError ("'" ++ type_name json_data
                                 ++ "' object has no attribute 'get'"))
  end.

Definition retry_hint : string :=
  "即便做了重试，还是有可能会遇到签名失败的情况，请重试".

(** [request.get_json()] belongs to Flask: what it returns or raises for the
    request at hand is the argument [req_json] ([Returned PNone] for
    [None], the JSON [null]; it raises for a request without body or with
    a body that is not JSON).  The whole body of the view is inside [try]/[except Exception]. *)
Definition sign_endpoint (E : Env) (req_json : outcome pyval) : M response :=
  try_except
    (let* json_data := lift req_json in
     if negb (truthy json_data)
     then
       log ERROR;;
       ret (Response 400 (PDict [("error", PStr "Request body is required");
                                 ("success", PBool false)]))
     else
       let* d := lift (get_method json_data) in
       let uri := dict_get d "uri" (PStr "") in
       let data := dict_get d "data" PNone in
       let a1 := dict_get d "a1" (PStr "") in
       let web_session := dict_get d "web_session" (PStr "") in
       let web_id := dict_get d "web_id" (PStr "") in
       if negb (truthy uri)
       then
         log ERROR;;
         ret (Response 400 (PDict [("error", PStr "uri parameter is required");
                                   ("success", PBool false)]))
       else
         log INFO;; log INFO;; log INFO;;
         let* result := generate_sign E uri data a1 web_session web_id in
         log INFO;;
         ret (Response 200 result))
    (fun e =>
       log ERROR;;
       ret (Response 500 (PDict [("error", PStr (exn_msg e));
                                 ("error_type", PStr (exn_type e));
                                 ("success", PBool false);
                                 ("hint", PStr retry_hint)]))).

Definition get_a1 : M response :=
  let* w := get_world in
  ret (jsonify [("a1", PStr (global_a1 w))]).

(** [@app.errorhandler(404)] *)
Definition not_found : M response :=
  ret (Response 404
         (PDict [("error", PStr "Endpoint not found");
                 ("available_endpoints",
                  PList [PStr "/"; PStr "/health"; PStr "/sign"; PStr "/a1"])])).

(** [@app.errorhandler(500)]: Flask hands it the InternalServerError it
    built around the exception [e] that escaped. *)
Definition internal_error (E : Env) (e : exn) : M response :=
  log ERROR;;
  ret (Response 500 (PDict [("error", PStr "Internal server error");
                            ("message", PStr (unhandled_text E e))])).

(** The responses Flask makes by itself, with no handler of the module:
    the status code and the page Werkzeug renders for it. *)
Definition framework_response (E : Env) (code : nat) : M response :=
  ret (Response code (PStr (framework_page E code))).

(** The automatic answer to OPTIONS on a routed path: 200, an [Allow]
    header and no body. *)
Definition automatic_options : M response :=
  ret (Response 200 (PStr "")).

(** A request, as Flask's URL map resolves it: a rule of the module
    with a method it accepts (HEAD goes where GET goes); no rule at all
    ([Unmatched]: NotFound, which the module handles); a rule that does
    not accept the method, as GET /sign or POST /health ([Disallowed]:
    405); OPTIONS on a routed path ([Automatic_options]); a path that the
    URL map normalises, as one with doubled slashes ([Redirected]: 308).
    The module has no handler for the last three: Flask answers them by
    itself, after the [before_request] hook. *)
Inductive endpoint :=
| POST_sign
| GET_health
| GET_a1
| GET_web_a1
| GET_index
| Unmatched
| Disallowed
| Automatic_options
| Redirected.

Record request := Request { req_endpoint : endpoint; req_json : outcome pyval }.

Definition view (E : Env) (req : request) : M response :=
  match req_endpoint req with
  | POST_sign => sign_endpoint E (req_json req)
  | GET_health => health_check E
  | GET_a1 => get_a1
  | GET_web_a1 => web_a1
  | GET_index => index
  | Unmatched => not_found
  | Disallowed => framework_response E 405
  | Automatic_options => automatic_options
  | Redirected => framework_response E 308
  end.

(** One request through the application, as Flask dispatches it: the
    [before_request] hook, then the view; an exception that escapes either
    goes to the handler registered for 500. *)
Definition handle_request (E : Env) (req : request) : M response :=
  try_except (ensure_browser E;; view E req) (internal_error E).

(** The [try: init_browser() except Exception] block of [__main__]. *)
Definition main_init (E : Env) : M unit :=
  try_except (init_browser E) (fun e => log ERROR;; ret tt).

(** The requests of a run, handled one after the other. *)
Fixpoint serve (E : Env) (reqs : list request) : M (list response) :=
  match reqs with
  | [] => ret []
  | req :: rest =>
      let* resp := handle_request E req in
      let* resps := serve E rest in
      ret (resp :: resps)
  end.

(** * Vocabulary of the statements *)

(** ** Events *)

Definition is_log (ev : event) : bool :=
  match ev with EvLog _ => true | _ => false end.
Definition is_evaluate (ev : event) : bool :=
  match ev with EvEvaluate _ _ _ => true | _ => false end.
Definition is_assign (ev : event) : bool :=
  match ev with EvAssignA1 _ => true | _ => false end.
Definition is_http (ev : event) : bool :=
  match ev with EvHttpGet _ => true | _ => false end.
Definition is_file_write (ev : event) : bool :=
  match ev with EvFileWrite _ _ => true | _ => false end.
Definition not_evaluate (ev : event) : bool := negb (is_evaluate ev).

(** What [download_stealth_js] may do. *)
Definition is_download_event (ev : event) : bool :=
  match ev with
  | EvLog _ | EvHttpGet _ | EvFileWrite _ _ => true
  | _ => false
  end.

(** What [generate_sign] may do: log, evaluate in the page, sleep. *)
Definition is_sign_event (ev : event) : bool :=
  match ev with
  | EvLog _ | EvEvaluate _ _ _ | EvSleep _ => true
  | _ => false
  end.

(** Everything that reaches the browser. *)
Definition is_browser_event (ev : event) : bool :=
  match ev with
  | EvPlaywrightStart | EvLaunch _ | EvNewContext _ | EvAddInitScript _ _
  | EvNewPage _ | EvGoto _ _ | EvCookies _ | EvEvaluate _ _ _ => true
  | _ => false
  end.

(** The events of a run that are not log records. *)
Definition effects (evs : list event) : list event :=
  List.filter (fun ev => negb (is_log ev)) evs.

Definition count (p : event -> bool) (evs : list event) : nat :=
  length (List.filter p evs).

(** ** States *)

(** The session: the four globals of the module. *)
Definition same_session (w w' : world) : Prop :=
  playwright_instance w' = playwright_instance w
  /\ browser_context w' = browser_context w
  /\ context_page w' = context_page w
  /\ global_a1 w' = global_a1 w.

(** ** Attempts of the signing engine *)

(** The signature and the timestamp the attempt reads off the dict. *)
Definition sig_value (d : list (string * pyval)) : pyval :=
  py_or (py_or (dict_get d "X-s" PNone) (dict_get d "x-s" PNone)) (PStr "").
Definition ts_value (d : list (string * pyval)) : pyval :=
  py_or (py_or (dict_get d "X-t" PNone) (dict_get d "x-t" PNone)) (PStr "").


(** What the [try] block of [generate_sign] makes of the value the page
    returned, effects left aside: the result dict, or the exception. *)
Definition extract_sign (E : Env) (encrypt_params : pyval) : outcome pyval :=
  match encrypt_params with
  | PDict d =>
      match (if truthy (sig_value d) then slice_prefix E 50 (sig_value d)
             else Returned (PStr "(空)")) with
      | Returned _ =>
          Returned (PDict [("x-s", sig_value d); ("x-t", PStr (py_str E (ts_value d)))])
      | Raised e => Raised e
      end
  | _ => Raised (Exception ("签名函数返回值不是字典: <class '"
                            ++ type_name encrypt_params ++ "'>"))
  end.

(** What one attempt does in the browser: one evaluation in the page, when
    there is a page. *)
Definition attempt_effects (uri data : pyval) (w : world) : list event :=
  match context_page w with
  | Some page => [EvEvaluate page uri data]
  | None => []
  end.

(** The state after [k] attempts: only the call counter has moved. *)
Definition advance (w : world) (k : nat) : world :=
  match context_page w with
  | Some _ =>
      World (playwright_instance w) (browser_context w) (context_page w)
            (global_a1 w) (files w) (k + ticks w)
  | None => w
  end.

(** The outcome of the attempt made after [j] earlier ones, in a call that
    started in [w]. *)
Definition attempt_outcome (E : Env) (uri data : pyval) (w : world) (j : nat)
  : outcome pyval :=
  match context_page w with
  | None => Raised (AttributeError "'NoneType' object has no attribute 'evaluate'")
  | Some page =>
      match page_evaluate E (j + ticks w) page uri data with
      | Returned v => extract_sign E v
      | Raised e => Raised e
      end
  end.

Definition attempt_fails (E : Env) (uri data : pyval) (w : world) (j : nat) : Prop :=
  exists e, attempt_outcome E uri data w j = Raised e.

(** [n] attempts with a pause of half a second between two of them. *)
Fixpoint retry_effects (attempt : list event) (n : nat) : list event :=
  match n with
  | 0 => []
  | 1 => attempt
  | S n' => attempt ++ EvSleep 500 :: retry_effects attempt n'
  end.

Definition terminal_prefix : string := "签名失败（重试10次）: ".

(** ** Requests and responses *)

Definition is_str (v : pyval) : bool :=
  match v with PStr _ => true | _ => false end.

(** The 400 body of a rejected request. *)
Definition rejection (msg : string) : response :=
  Response 400 (PDict [("error", PStr msg); ("success", PBool false)]).

(** The 500 body of [sign_endpoint]. *)
Definition sign_failure (e : exn) : response :=
  Response 500 (PDict [("error", PStr (exn_msg e));
                       ("error_type", PStr (exn_type e));
                       ("success", PBool false);
                       ("hint", PStr retry_hint)]).

(** The 500 body of the application-wide handler. *)
Definition server_error (E : Env) (e : exn) : response :=
  Response 500 (PDict [("error", PStr "Internal server error");
                       ("message", PStr (unhandled_text E e))]).

(** A field of the JSON object a response carries. *)
Definition field (resp : response) (k : string) : option pyval :=
  match body resp with
  | PDict d => dict_lookup d k
  | _ => None
  end.

(** What a health response reports. *)
Definition reports (resp : response) (code : nat) (state : string) (ready : bool) : Prop :=
  status resp = code
  /\ field resp "status" = Some (PStr state)
  /\ field resp "browser_ready" = Some (PBool ready).

(** [get_json()] raised: the request has no body at all, or a body that
    is not JSON.  Flask raises BadRequest for an empty or unparsable body
    sent as JSON, and refuses any other content type (with
    UnsupportedMediaType; with BadRequest before Werkzeug 2.3). *)
Definition body_missing (req_json : outcome pyval) : bool :=
  match req_json with Raised _ => true | Returned _ => false end.

(** [get_json()] returned [None]: the body is the JSON literal [null]. *)
Definition body_null (req_json : outcome pyval) : bool :=
  match req_json with Returned PNone => true | _ => false end.

(** The body is a JSON object whose [uri] is missing or the empty string. *)
Definition uri_absent_or_empty (req_json : outcome pyval) : bool :=
  match req_json with
  | Returned (PDict d) =>
      match dict_lookup d "uri" with
      | None | Some (PStr "") => true
      | Some _ => false
      end
  | _ => false
  end.

(** What the two tests of [sign_endpoint] turn away. *)
Definition invalid (req_json : outcome pyval) : bool :=
  body_null req_json || uri_absent_or_empty req_json.

(** Malformed client input: no body, a null body, or no [uri]. *)
Definition malformed (req_json : outcome pyval) : bool :=
  body_missing req_json || invalid req_json.

(** The status of the response a run produced, if it produced one. *)
Definition status_of (r : run response) : option nat :=
  match run_outcome r with
  | Returned resp => Some (status resp)
  | Raised _ => None
  end.

(** ** The asset fetcher *)

(** A mirror that raised, or answered with fewer than 100 characters. *)
Definition mirror_unusable (o : outcome string) : bool :=
  match o with
  | Raised _ => true
  | Returned text => Nat.ltb (String.length text) 100
  end.

(** ** Assertions on runs *)

(** An assertion speaks about the state and the events performed so far. *)
Definition assertion : Type := world -> list event -> Prop.

(** [wp m Q X w evs]: started in [w] after the events [evs], the
    computation [m] ends in [Q] when it returns and in [X] when it raises. *)
Definition wp {A} (m : M A) (Q : A -> assertion) (X : exn -> assertion) : assertion :=
  fun w evs =>
    match run_outcome (m w) with
    | Returned a => Q a (run_world (m w)) (evs ++ run_events (m w))
    | Raised e => X e (run_world (m w)) (evs ++ run_events (m w))
    end.

(** What holds of the state and of the events after [init_browser],
    started in [w], whether it returns or raises. *)
Definition after_init (w w' : world) (d : list event) : Prop :=
  forallb not_evaluate d = true
  /\ count is_assign d <= 1
  /\ (1 <= count is_assign d -> context_page w' <> None)
  /\ (context_page w <> None -> context_page w' <> None).

(** The invariant of a run of the server: the identity token has been
    assigned at most once, and only in a session that has its page. *)
Definition assigned_once (w : world) (evs : list event) : Prop :=
  count is_assign evs <= 1
  /\ (1 <= count is_assign evs -> context_page w <> None).

(** ** Scenarios *)

(** An outside world in which the browser starts, the home page loads and
    sets its cookies, and the mirrors are unreachable; the page answers
    [evaluate] and [goto] as given. *)
Definition scenario (start : nat -> outcome handle)
                    (goto : nat -> handle -> string -> outcome unit)
                    (evaluate : nat -> handle -> pyval -> pyval -> outcome pyval) : Env :=
  {| requests_get := fun _ _ => Raised (Exn "ConnectionError" "mirror unreachable");
     file_write := fun _ _ _ => Written;
     sync_playwright_start := start;
     chromium_launch := fun t _ => Returned t;
     browser_new_context := fun t _ => Returned t;
     context_add_init_script := fun _ _ _ => Returned tt;
     context_new_page := fun t _ => Returned t;
     page_goto := goto;
     context_cookies := fun _ _ => Returned [("webId", "f00d"); ("a1", "18c0ffee")];
     page_evaluate := evaluate;
     time_time := fun _ => PyFloat true "1700000000.5";
     py_repr := fun _ => "[...]";
     dict_slice_error := TypeError "unhashable type: 'slice'";
     unhandled_text := fun _ => "500 Internal Server Error";
     framework_page := fun _ => "<!doctype html>" |}.

Definition signed : pyval :=
  PDict [("X-s", PStr "XYW_eyJzaWduIjoi"); ("X-t", PInt 1700000000000)].

(** Everything works. *)
Definition calm : Env :=
  scenario (fun t => Returned t) (fun _ _ _ => Returned tt)
           (fun _ _ _ _ => Returned signed).

(** The browser engine cannot start. *)
Definition no_browser : Env :=
  scenario (fun _ => Raised (Exn "Error" "Executable doesn't exist"))
           (fun _ _ _ => Returned tt) (fun _ _ _ _ => Returned signed).

(** The home page cannot be reached, so the page never gets the signing
    function. *)
Definition navigation_fails : Env :=
  scenario (fun t => Returned t)
           (fun _ _ _ => Raised (Exn "TimeoutError" "Timeout 30000ms exceeded."))
           (fun _ _ _ _ => Raised (Exn "Error" "window._webmsxyw is not a function")).

(** The signing function is never there. *)
Definition never_signs : Env :=
  scenario (fun t => Returned t) (fun _ _ _ => Returned tt)
           (fun _ _ _ _ => Raised (Exn "Error" "window._webmsxyw is not a function")).

(** The signing function answers with a list where the signature goes. *)
Definition list_signature : Env :=
  scenario (fun t => Returned t) (fun _ _ _ => Returned tt)
           (fun _ _ _ _ => Returned (PDict [("X-s", PList [PStr "a"]); ("X-t", PInt 1)])).


(** What [get_json()] does with a POST that carries no body and no
    content type. *)
Definition no_body : outcome pyval :=
  Raised (Exn "UnsupportedMediaType"
              "415 Unsupported Media Type: Did not attempt to load JSON data because the request Content-Type was not 'application/json'.").

(** A process whose session is up. *)
Definition ready_world : world :=
  World (Some 0) (Some 2) (Some 3) "18c0ffee" ∅ 7.

(** A directory that already holds the script. *)
Definition with_script : gmap string string :=
  {[ stealth_js_path := "/* stealth */" ]}.


(** ** Further vocabulary: pauses, answers of the page, phases of the bootstrap *)

Definition is_sleep (ev : event) : bool :=
  match ev with EvSleep _ => true | _ => false end.
Definition is_goto (ev : event) : bool :=
  match ev with EvGoto _ _ => true | _ => false end.
Definition is_start (ev : event) : bool :=
  match ev with EvPlaywrightStart => true | _ => false end.

(** The time a run spends in [time.sleep], in milliseconds. *)
Fixpoint total_sleep (evs : list event) : nat :=
  match evs with
  | [] => 0
  | EvSleep ms :: rest => ms + total_sleep rest
  | _ :: rest => total_sleep rest
  end.

(** The values [v[:50]] is defined on. *)
Definition sliceable (v : pyval) : bool :=
  match v with PStr _ | PList _ => true | _ => false end.

(** The answers of the page that an attempt accepts: a dict whose
    signature is false in a boolean context, a string or a list. *)
Definition usable_answer (v : pyval) : bool :=
  match v with
  | PDict d => negb (truthy (sig_value d)) || sliceable (sig_value d)
  | _ => false
  end.

(** What a view may do: log, evaluate in the page, sleep, read the clock. *)
Definition is_view_event (ev : event) : bool :=
  match ev with
  | EvLog _ | EvEvaluate _ _ _ | EvSleep _ | EvClock => true
  | _ => false
  end.

(** The status codes of the application: those of its views and of its
    two error handlers, and those of the answers Flask gives by itself
    (308 and 405). *)
Definition answered (resp : response) : Prop :=
  In (status resp) [200; 308; 400; 404; 405; 500].

(** The status codes a request gets once the session has its page, by
    what it asks for: for POST /sign, 500 is that of the generic handler
    of [sign_endpoint]. *)
Definition served (req : request) (resp : response) : Prop :=
  match req_endpoint req with
  | POST_sign => In (status resp) [200; 400; 500]
  | GET_health | GET_a1 | GET_web_a1 | GET_index | Automatic_options =>
      status resp = 200
  | Unmatched => status resp = 404
  | Disallowed => status resp = 405
  | Redirected => status resp = 308
  end.

(** The status codes a request gets in any state: those of its route, or
    the 500 of the application-wide handler. *)
Definition answers (req : request) (resp : response) : Prop :=
  served req resp \/ status resp = 500.

(** The value of the first cookie named [a1]. *)
Fixpoint first_a1 (cookies : list (string * string)) : option string :=
  match cookies with
  | [] => None
  | (name, value) :: rest =>
      if String.eqb name "a1" then Some value else first_a1 rest
  end.

(** The steps of the bootstrap, as seen from outside the process. *)
Inductive phase :=
| Fetching
| Started
| Launched
| InContext
| Scripted
| Paged
| Navigated
| Settled
| CookiesRead
| Assigned.

(** The effect that may come next in each phase, and the phase it leads
    to: fetching the script, starting the engine, launching the browser,
    creating the context, registering the script, creating the page,
    navigating to the home page, pausing one second, reading the cookies,
    assigning the identity token (optional).  [script] is what
    [download_stealth_js] returned: when it is a path, the page can only
    be created after the script at that path has been registered in the
    context; when it is [None], nothing can be registered. *)
Definition next_phase (script : option string) (ph : phase) (ev : event)
  : option phase :=
  match ph, ev with
  | Fetching, (EvHttpGet _ | EvFileWrite _ _) => Some Fetching
  | Fetching, EvPlaywrightStart => Some Started
  | Started, EvLaunch _ => Some Launched
  | Launched, EvNewContext _ => Some InContext
  | InContext, EvAddInitScript _ path =>
      match script with
      | Some obtained => if String.eqb path obtained then Some Scripted else None
      | None => None
      end
  | InContext, EvNewPage _ =>
      match script with
      | Some _ => None
      | None => Some Paged
      end
  | Scripted, EvNewPage _ => Some Paged
  | Paged, EvGoto _ url => if String.eqb url home_url then Some Navigated else None
  | Navigated, EvSleep ms => if Nat.eqb ms 1000 then Some Settled else None
  | Settled, EvCookies _ => Some CookiesRead
  | CookiesRead, EvAssignA1 _ => Some Assigned
  | _, _ => None
  end.

Fixpoint follow (script : option string) (ph : phase) (evs : list event)
  : option phase :=
  match evs with
  | [] => Some ph
  | ev :: rest =>
      match next_phase script ph ev with
      | Some ph' => follow script ph' rest
      | None => None
      end
  end.

(** What [init_browser] leaves behind, in terms of how far it went. *)
Definition bootstrap_trace (E : Env) (w w' : world) (d : list event) : Prop :=
  (exists script ph,
      run_outcome (download_stealth_js E w) = Returned script
      /\ follow script Fetching (effects d) = Some ph)
  /\ count is_start d = 1
  /\ (count is_goto d = 0 ->
      context_page w' = context_page w /\ global_a1 w' = global_a1 w)
  /\ (count is_goto d <> 0 ->
      exists page, context_page w' = Some page /\ In (EvGoto page home_url) d).

(** What a run of [init_browser] that returns has set up: the cookies it
    read, the handles it kept, the identity token it captured, and the
    calls it made on them. *)
Definition bootstrapped (E : Env) (w w' : world) (d : list event) : Prop :=
  (exists script ph,
      run_outcome (download_stealth_js E w) = Returned script
      /\ follow script Fetching (effects d) = Some ph
      /\ (ph = CookiesRead \/ ph = Assigned))
  /\ exists t pw ctx page cookies,
       context_cookies E t ctx = Returned cookies
       /\ playwright_instance w' = Some pw
       /\ browser_context w' = Some ctx
       /\ context_page w' = Some page
       /\ global_a1 w' = default (global_a1 w) (first_a1 cookies)
       /\ In (EvLaunch pw) d /\ In (EvNewPage ctx) d
       /\ In (EvGoto page home_url) d /\ In (EvCookies ctx) d.

(** What a process does while the engine cannot start: log, fetch the
    script, write it, try to start the engine. *)
Definition is_degraded_event (ev : event) : bool :=
  is_download_event ev || is_start ev.

(** What [download_stealth_js] leaves on disk: a result comes with the
    script at its path, no other path is touched, nothing changes without
    a write, and a write follows a fetch. *)
Definition stored (w w' : world) (r : option string) (d : list event) : Prop :=
  (forall p, r = Some p -> p = stealth_js_path /\ is_Some (files w' !! stealth_js_path))
  /\ (forall p, p <> stealth_js_path -> files w' !! p = files w !! p)
  /\ (count is_file_write d = 0 -> files w' = files w)
  /\ count is_file_write d <= count is_http d.

(** A script as a mirror serves it. *)
Definition stealth_text : string :=
  "/* stealth.min.js */ (() => { Object.defineProperty(navigator, 'webdriver', { get: () => undefined }); })();".

(** The outside world of [calm], with mirrors and a disk as given. *)
Definition mirrors (get : nat -> string -> outcome string)
                   (write : nat -> string -> string -> write_outcome) : Env :=
  {| requests_get := get;
     file_write := write;
     sync_playwright_start := sync_playwright_start calm;
     chromium_launch := chromium_launch calm;
     browser_new_context := browser_new_context calm;
     context_add_init_script := context_add_init_script calm;
     context_new_page := context_new_page calm;
     page_goto := page_goto calm;
     context_cookies := context_cookies calm;
     page_evaluate := page_evaluate calm;
     time_time := time_time calm;
     py_repr := py_repr calm;
     dict_slice_error := dict_slice_error calm;
     unhandled_text := unhandled_text calm;
     framework_page := framework_page calm |}.

(** Only the mirror at [url] serves the script. *)
Definition served_by (url : string) : nat -> string -> outcome string :=
  fun _ u => if String.eqb u url then Returned stealth_text
             else Raised (Exn "ConnectionError" "mirror unreachable").

(** The second mirror serves the script, and the disk takes it. *)
Definition second_mirror_serves : Env :=
  mirrors (served_by "https://fastly.jsdelivr.net/gh/requireCool/stealth.min.js/stealth.min.js")
          (fun _ _ _ => Written).

(** The first mirror serves the script, and the disk is full: the file is
    created and stays empty. *)
Definition disk_full : Env :=
  mirrors (served_by "https://cdn.jsdelivr.net/gh/requireCool/stealth.min.js/stealth.min.js")
          (fun _ _ _ => WriteFailed (Exn "OSError" "[Errno 28] No space left on device")
                                    (Some "")).

(** * Lemmas *)

(** ** Events *)

Lemma effects_app evs1 evs2 : effects (evs1 ++ evs2) = effects evs1 ++ effects evs2.
Proof. apply List.filter_app. Qed.

Lemma count_app p evs1 evs2 : count p (evs1 ++ evs2) = count p evs1 + count p evs2.
Proof. unfold count. now rewrite List.filter_app, length_app. Qed.

Lemma count_effects p evs :
  (forall ev, p ev = true -> is_log ev = false) ->
  count p (effects evs) = count p evs.
Proof.
  intros Hp. unfold count, effects.
  induction evs as [|ev evs IH]; simpl; [reflexivity|].
  destruct (p ev) eqn:Hev.
  - rewrite (Hp _ Hev). simpl. rewrite Hev. simpl. now rewrite IH.
  - destruct (is_log ev); simpl; [|rewrite Hev]; exact IH.
Qed.

Lemma forallb_effects p evs :
  (forall ev, is_log ev = true -> p ev = true) ->
  forallb p (effects evs) = true -> forallb p evs = true.
Proof.
  intros Hp. unfold effects.
  induction evs as [|ev evs IH]; simpl; [reflexivity|].
  destruct (is_log ev) eqn:Hev; simpl.
  - intros H. now rewrite (Hp _ Hev), IH.
  - intros [-> H]%andb_prop. now rewrite IH.
Qed.

(** ** Runs of composed computations *)

Lemma bind_returned {A B} (m : M A) (k : A -> M B) w a :
  run_outcome (m w) = Returned a ->
  bind m k w = Run (run_world (k a (run_world (m w))))
                   (run_events (m w) ++ run_events (k a (run_world (m w))))
                   (run_outcome (k a (run_world (m w)))).
Proof. intros H. unfold bind. now rewrite H. Qed.

Lemma bind_raised {A B} (m : M A) (k : A -> M B) w e :
  run_outcome (m w) = Raised e ->
  bind m k w = Run (run_world (m w)) (run_events (m w)) (Raised e).
Proof. intros H. unfold bind. now rewrite H. Qed.

Lemma try_except_returned {A} (m : M A) h w a :
  run_outcome (m w) = Returned a -> try_except m h w = m w.
Proof. intros H. unfold try_except. now rewrite H. Qed.

Lemma try_except_raised {A} (m : M A) h w e :
  run_outcome (m w) = Raised e ->
  try_except m h w = Run (run_world (h e (run_world (m w))))
                         (run_events (m w) ++ run_events (h e (run_world (m w))))
                         (run_outcome (h e (run_world (m w)))).
Proof. intros H. unfold try_except. now rewrite H. Qed.

(** ** The rules of the calculus *)

Section Rules.
Context {A : Type}.
Variables (Q : A -> assertion) (X : exn -> assertion).
Variables (w : world) (evs : list event).

Lemma wp_ret a : Q a w evs -> wp (ret a) Q X w evs.
Proof. unfold wp, ret. cbn. now rewrite app_nil_r. Qed.

Lemma wp_raise e : X e w evs -> wp (raise e) Q X w evs.
Proof. unfold wp, raise. cbn. now rewrite app_nil_r. Qed.

Lemma wp_lift (o : outcome A) :
  match o with Returned a => Q a w evs | Raised e => X e w evs end ->
  wp (lift o) Q X w evs.
Proof. unfold wp, lift. cbn. rewrite app_nil_r. now destruct o. Qed.

Lemma wp_bind {B} (m : M B) (k : B -> M A) :
  wp m (fun b => wp (k b) Q X) X w evs -> wp (bind m k) Q X w evs.
Proof.
  unfold wp, bind. destruct (run_outcome (m w)); cbn; [|auto].
  now rewrite app_assoc.
Qed.

Lemma wp_try_except (m : M A) (h : exn -> M A) :
  wp m Q (fun e => wp (h e) Q X) w evs -> wp (try_except m h) Q X w evs.
Proof.
  unfold wp, try_except. destruct (run_outcome (m w)) eqn:H; cbn.
  - now rewrite H.
  - now rewrite app_assoc.
Qed.

Lemma wp_external ev (oracle : nat -> outcome A) :
  match oracle (ticks w) with
  | Returned a => Q a (tick w) (evs ++ [ev])
  | Raised e => X e (tick w) (evs ++ [ev])
  end ->
  wp (external ev oracle) Q X w evs.
Proof. unfold wp, external. cbn. now destruct (oracle (ticks w)). Qed.

End Rules.

Section UnitRules.
Variables (Q : unit -> assertion) (X : exn -> assertion).
Variables (w : world) (evs : list event).

Lemma wp_emit ev : Q tt w (evs ++ [ev]) -> wp (emit ev) Q X w evs.
Proof. unfold wp, emit. now cbn. Qed.

Lemma wp_log lvl : Q tt w (evs ++ [EvLog lvl]) -> wp (log lvl) Q X w evs.
Proof. apply wp_emit. Qed.

Lemma wp_sleep ms : Q tt w (evs ++ [EvSleep ms]) -> wp (sleep ms) Q X w evs.
Proof. apply wp_emit. Qed.

Lemma wp_set_playwright_instance h :
  Q tt (World (Some h) (browser_context w) (context_page w)
              (global_a1 w) (files w) (ticks w)) evs ->
  wp (set_playwright_instance h) Q X w evs.
Proof. unfold wp, set_playwright_instance. cbn. now rewrite app_nil_r. Qed.

Lemma wp_set_browser_context h :
  Q tt (World (playwright_instance w) (Some h) (context_page w)
              (global_a1 w) (files w) (ticks w)) evs ->
  wp (set_browser_context h) Q X w evs.
Proof. unfold wp, set_browser_context. cbn. now rewrite app_nil_r. Qed.

Lemma wp_set_context_page h :
  Q tt (World (playwright_instance w) (browser_context w) (Some h)
              (global_a1 w) (files w) (ticks w)) evs ->
  wp (set_context_page h) Q X w evs.
Proof. unfold wp, set_context_page. cbn. now rewrite app_nil_r. Qed.

Lemma wp_set_global_a1 v :
  Q tt (World (playwright_instance w) (browser_context w) (context_page w)
              v (files w) (ticks w)) (evs ++ [EvAssignA1 v]) ->
  wp (set_global_a1 v) Q X w evs.
Proof. unfold wp, set_global_a1. now cbn. Qed.

Lemma wp_write_file E path text :
  match file_write E (ticks w) path text with
  | Written =>
      Q tt (World (playwright_instance w) (browser_context w) (context_page w)
                  (global_a1 w) (<[path := text]> (files w)) (S (ticks w)))
           (evs ++ [EvFileWrite path text])
  | WriteFailed e left_behind =>
      X e (World (playwright_instance w) (browser_context w) (context_page w)
                 (global_a1 w)
                 (match left_behind with
                  | Some partial => <[path := partial]> (files w)
                  | None => files w
                  end)
                 (S (ticks w)))
          (evs ++ [EvFileWrite path text])
  end ->
  wp (write_file E path text) Q X w evs.
Proof. unfold wp, write_file. now destruct (file_write E (ticks w) path text). Qed.

End UnitRules.

Lemma wp_get_world (Q : world -> assertion) X w evs :
  Q w w evs -> wp get_world Q X w evs.
Proof. unfold wp, get_world. cbn. now rewrite app_nil_r. Qed.

Lemma wp_path_exists path (Q : bool -> assertion) X w evs :
  Q (bool_decide (is_Some (files w !! path))) w evs -> wp (path_exists path) Q X w evs.
Proof. unfold wp, path_exists. cbn. now rewrite app_nil_r. Qed.

(** A run proved never to raise has returned. *)
Lemma wp_returns {A} (m : M A) (Q : A -> assertion) w :
  wp m Q (fun _ _ _ => False) w [] ->
  exists a, run_outcome (m w) = Returned a /\ Q a (run_world (m w)) (run_events (m w)).
Proof.
  unfold wp. cbn [app]. destruct (run_outcome (m w)) as [a|e]; [|tauto].
  intros H. now exists a.
Qed.

(** A run proved to return one value in one state after given events. *)
Lemma wp_exact {A} (m : M A) w a w' d :
  wp m (fun a1 w1 d1 => a1 = a /\ w1 = w' /\ d1 = d) (fun _ _ _ => False) w [] ->
  m w = Run w' d (Returned a).
Proof.
  unfold wp. destruct (m w) as [w1 d1 [a1|e]]; cbn; [|tauto].
  now intros (-> & -> & ->).
Qed.

(** One step of symbolic execution: the rule of the computation at the
    head, or a case analysis on what it branches on. *)
Ltac wp_step :=
  lazymatch goal with
  | |- wp (bind _ _) _ _ _ _ => apply wp_bind
  | |- wp (try_except _ _) _ _ _ _ => apply wp_try_except
  | |- wp (ret _) _ _ _ _ => apply wp_ret
  | |- wp (raise _) _ _ _ _ => apply wp_raise
  | |- wp (lift _) _ _ _ _ => apply wp_lift
  | |- wp (log _) _ _ _ _ => apply wp_log
  | |- wp (sleep _) _ _ _ _ => apply wp_sleep
  | |- wp (emit _) _ _ _ _ => apply wp_emit
  | |- wp get_world _ _ _ _ => apply wp_get_world
  | |- wp (path_exists _) _ _ _ _ => apply wp_path_exists
  | |- wp (external _ _) _ _ _ _ => apply wp_external
  | |- wp (write_file _ _ _) _ _ _ _ => apply wp_write_file
  | |- wp (set_playwright_instance _) _ _ _ _ => apply wp_set_playwright_instance
  | |- wp (set_browser_context _) _ _ _ _ => apply wp_set_browser_context
  | |- wp (set_context_page _) _ _ _ _ => apply wp_set_context_page
  | |- wp (set_global_a1 _) _ _ _ _ => apply wp_set_global_a1
  | |- wp (match ?x with _ => _ end) _ _ _ _ => destruct x
  | |- match ?x with _ => _ end => destruct x
  end.

Ltac wp_simpl :=
  cbv beta;
  cbn [tick playwright_instance browser_context context_page global_a1 files ticks].

Ltac wp_run := repeat (wp_simpl; wp_step).

(** ** The signing engine: attempts and retries *)

Section Engine.
Variable E : Env.
Variables uri data : pyval.

Lemma advance_advance w k : advance (advance w 1) k = advance w (S k).
Proof.
  unfold advance. destruct w as [pw ctx [p|] a fs t]; simpl; [|reflexivity].
  f_equal. lia.
Qed.

Lemma advance_same_session w k : same_session w (advance w k).
Proof. unfold advance, same_session. destruct (context_page w) eqn:H; cbn; auto. Qed.

Lemma advance_files w k : files (advance w k) = files w.
Proof. unfold advance. now destruct (context_page w). Qed.

Lemma attempt_effects_advance w k :
  attempt_effects uri data (advance w k) = attempt_effects uri data w.
Proof.
  unfold attempt_effects, advance.
  destruct (context_page w) eqn:H; simpl; now rewrite ?H.
Qed.

Lemma attempt_outcome_advance w j :
  attempt_outcome E uri data (advance w 1) j = attempt_outcome E uri data w (S j).
Proof.
  unfold attempt_outcome, advance.
  destruct (context_page w) eqn:H; simpl; rewrite ?H; [|reflexivity].
  now replace (j + S (ticks w)) with (S (j + ticks w)) by lia.
Qed.

(** The [try] block of one attempt: its outcome is [extract_sign] of what
    the page answered, and all it does is one evaluation. *)
Lemma sign_attempt_spec w :
  run_outcome (sign_attempt E uri data w) = attempt_outcome E uri data w 0
  /\ run_world (sign_attempt E uri data w) = advance w 1
  /\ effects (run_events (sign_attempt E uri data w)) = attempt_effects uri data w.
Proof.
  unfold attempt_outcome, advance, attempt_effects.
  unfold sign_attempt, evaluate_sign.
  cbv [external bind log emit get_world raise lift ret run_outcome run_world run_events].
  destruct (context_page w) as [page|] eqn:Hpage.
  2: { cbn [app effects List.filter is_log negb]. repeat split. }
  cbn [Nat.add].
  assert (Htick : tick w = World (playwright_instance w) (browser_context w) (Some page)
                                 (global_a1 w) (files w) (S (ticks w))).
  { unfold tick. now rewrite Hpage. }
  destruct (page_evaluate E (ticks w) page uri data) as [v|e].
  2: { cbn [app effects List.filter is_log negb]. repeat split. exact Htick. }
  destruct v;
    try (cbn [app effects List.filter is_log negb extract_sign]; repeat split; exact Htick).
  cbn [extract_sign]. unfold sig_value, ts_value.
  set (x_s := py_or _ (PStr "")). set (x_t := py_or _ (PStr "")).
  destruct (truthy x_s) eqn:Hs; destruct (truthy x_t) eqn:Ht;
    try destruct (slice_prefix E 50 x_s);
    cbn [app effects List.filter is_log negb]; repeat split; exact Htick.
Qed.

(** One turn of the loop, in terms of the outcome of its attempt. *)
Lemma sign_once_spec attempt w :
  let r := sign_once E attempt uri data w in
  run_world r = advance w 1
  /\ match attempt_outcome E uri data w 0 with
     | Returned res =>
         run_outcome r = Returned (Some res)
         /\ effects (run_events r) = attempt_effects uri data w
     | Raised e =>
         if Nat.eqb attempt 9
         then run_outcome r = Raised (Exception (terminal_prefix ++ exn_msg e))
              /\ effects (run_events r) = attempt_effects uri data w
         else run_outcome r = Returned None
              /\ effects (run_events r) = attempt_effects uri data w ++ [EvSleep 500]
     end.
Proof.
  destruct (sign_attempt_spec w) as (Hout & Hworld & Heff).
  cbv zeta. unfold sign_once.
  set (m := bind (sign_attempt E uri data) (fun result => ret (Some result))).
  destruct (attempt_outcome E uri data w 0) as [res|e].
  - assert (Hm : m w = Run (advance w 1) (run_events (sign_attempt E uri data w) ++ [])
                           (Returned (Some res))).
    { unfold m. rewrite (bind_returned _ _ _ res) by exact Hout. now rewrite Hworld. }
    rewrite (try_except_returned m _ w (Some res)) by now rewrite Hm.
    rewrite Hm. cbn [run_world run_events run_outcome].
    rewrite app_nil_r. auto.
  - assert (Hm : m w = Run (advance w 1) (run_events (sign_attempt E uri data w)) (Raised e)).
    { unfold m. rewrite (bind_raised _ _ _ e) by exact Hout. now rewrite Hworld. }
    rewrite (try_except_raised m _ w e) by now rewrite Hm.
    rewrite Hm. cbn [run_world run_events run_outcome].
    destruct (Nat.eqb attempt 9);
      unfold bind, log, emit, sleep, raise, ret;
      cbn [run_world run_events run_outcome];
      rewrite !effects_app, Heff;
      cbn [effects List.filter is_log negb app]; rewrite ?app_nil_r; auto.
Qed.

Lemma retry_effects_succ ev k :
  0 < k -> retry_effects ev (S k) = ev ++ EvSleep 500 :: retry_effects ev k.
Proof. destruct k; [lia|reflexivity]. Qed.

(** The loop over the attempts [a], [a+1], ..., [9]: it makes [k] of them,
    pausing between two; all but the last one made have failed; it returns
    what the last one returned, or raises when the tenth has failed. *)
Lemma sign_loop_spec : forall n a w, a + n = 10 -> 0 < n ->
  let r := sign_loop E (seq a n) uri data w in
  exists k, 1 <= k <= n /\
    effects (run_events r) = retry_effects (attempt_effects uri data w) k /\
    run_world r = advance w k /\
    (forall j, j < k - 1 -> attempt_fails E uri data w j) /\
    match run_outcome r with
    | Returned res => attempt_outcome E uri data w (k - 1) = Returned res
    | Raised e =>
        k = n /\ exists e', attempt_outcome E uri data w (k - 1) = Raised e'
                            /\ e = Exception (terminal_prefix ++ exn_msg e')
    end.
Proof.
  induction n as [|n IH]; intros a w Ha Hn; [lia|].
  cbn [seq sign_loop].
  destruct (sign_once_spec a w) as (Hworld & Hrun). cbv zeta in Hworld, Hrun.
  destruct (attempt_outcome E uri data w 0) as [res|e] eqn:Hfirst.
  - destruct Hrun as (Hout & Heff).
    rewrite (bind_returned _ _ _ _ Hout).
    cbn [ret run_outcome run_world run_events].
    exists 1. rewrite !app_nil_r, Heff, Hworld.
    cbn [retry_effects Nat.sub]. repeat split; try lia. exact Hfirst.
  - destruct (Nat.eqb a 9) eqn:Ha9.
    + apply Nat.eqb_eq in Ha9. assert (n = 0) by lia. subst n.
      destruct Hrun as (Hout & Heff).
      rewrite (bind_raised _ _ _ _ Hout).
      cbn [run_outcome run_world run_events].
      exists 1. rewrite Heff, Hworld.
      cbn [retry_effects Nat.sub].
      repeat split; try lia.
      exists e. split; [exact Hfirst|reflexivity].
    + apply Nat.eqb_neq in Ha9.
      destruct Hrun as (Hout & Heff).
      rewrite (bind_returned _ _ _ _ Hout).
      cbn [run_outcome run_world run_events].
      rewrite Hworld.
      destruct (IH (S a) (advance w 1) ltac:(lia) ltac:(lia))
        as (k & Hk & Hke & Hkw & Hkf & Hko).
      cbv zeta in Hke, Hkw, Hko.
      exists (S k).
      rewrite !effects_app, Heff, Hke, Hkw, advance_advance, attempt_effects_advance.
      rewrite retry_effects_succ by lia.
      repeat split; try lia.
      * rewrite <- app_assoc. reflexivity.
      * intros j Hj. destruct j as [|j].
        -- exists e. exact Hfirst.
        -- destruct (Hkf j ltac:(lia)) as [e' He'].
           exists e'. now rewrite <- attempt_outcome_advance.
      * replace (S k - 1) with (S (k - 1)) by lia.
        rewrite <- attempt_outcome_advance.
        destruct (run_outcome (sign_loop E (seq (S a) n) uri data (advance w 1))).
        -- exact Hko.
        -- destruct Hko as (-> & Hko). split; [reflexivity|exact Hko].
Qed.

(** Retrying performs evaluations and pauses, nothing else. *)
Lemma retry_effects_sign_events w k :
  forallb is_sign_event (retry_effects (attempt_effects uri data w) k) = true.
Proof.
  assert (Ha : forallb is_sign_event (attempt_effects uri data w) = true).
  { unfold attempt_effects. now destruct (context_page w). }
  induction k as [|k IH]; [reflexivity|].
  destruct k as [|k]; [exact Ha|].
  rewrite retry_effects_succ by lia.
  rewrite forallb_app, Ha. cbn [forallb is_sign_event andb]. exact IH.
Qed.

Lemma retry_effects_evaluations w k :
  count is_evaluate (retry_effects (attempt_effects uri data w) k) <= k.
Proof.
  assert (Ha : count is_evaluate (attempt_effects uri data w) <= 1).
  { unfold attempt_effects. destruct (context_page w); cbn; lia. }
  induction k as [|k IH]; [cbn; lia|].
  destruct k as [|k]; [exact Ha|].
  rewrite retry_effects_succ by lia.
  rewrite count_app.
  change (EvSleep 500 :: ?l) with ([EvSleep 500] ++ l). rewrite count_app.
  cbn [count List.filter is_evaluate length]. cbn [count] in IH. lia.
Qed.

End Engine.

Lemma sign_events_no_assign d :
  forallb is_sign_event d = true -> count is_assign d = 0.
Proof.
  unfold count. induction d as [|ev d IH]; cbn; [reflexivity|].
  intros [Hev Hd]%andb_prop. destruct ev; try discriminate; cbn; auto.
Qed.

(** [generate_sign] in the calculus: it only moves the call counter, and
    what it does is log, evaluate and sleep. *)
Lemma wp_generate_sign E uri data a1 web_session web_id
      (Q : pyval -> assertion) X w evs :
  (forall w' d,
     same_session w w' -> files w' = files w ->
     forallb is_sign_event d = true ->
     (forall res, Q res w' (evs ++ d)) /\ (forall e, X e w' (evs ++ d))) ->
  wp (generate_sign E uri data a1 web_session web_id) Q X w evs.
Proof.
  intros H. unfold wp, generate_sign.
  destruct (sign_loop_spec E uri data 10 0 w eq_refl ltac:(lia))
    as (k & _ & Heff & Hw & _).
  cbv zeta in Heff, Hw.
  destruct (H (run_world (sign_loop E (seq 0 10) uri data w))
              (run_events (sign_loop E (seq 0 10) uri data w))) as (HQ & HX).
  - rewrite Hw. apply advance_same_session.
  - rewrite Hw. apply advance_files.
  - apply forallb_effects; [now intros []|].
    rewrite Heff. apply retry_effects_sign_events.
  - destruct (run_outcome (sign_loop E (seq 0 10) uri data w)); auto.
Qed.

(** ** The asset fetcher *)

Lemma same_session_refl w : same_session w w.
Proof. now repeat split. Qed.

Lemma same_session_trans w1 w2 w3 :
  same_session w1 w2 -> same_session w2 w3 -> same_session w1 w3.
Proof. intros (?&?&?&?) (?&?&?&?). repeat split; congruence. Qed.

Ltac wp_leaf H :=
  rewrite <- ?app_assoc; apply H; [repeat split | reflexivity].

Lemma wp_download_from E idx url (Q : option string -> assertion) X w evs :
  (forall r w' d, same_session w w' -> forallb is_download_event d = true ->
                  Q r w' (evs ++ d)) ->
  wp (download_from E idx url) Q X w evs.
Proof.
  intros H. unfold download_from. wp_run; wp_leaf H.
Qed.

Lemma wp_download_loop E urls : forall idx (Q : option string -> assertion) X w evs,
  (forall r w' d, same_session w w' -> forallb is_download_event d = true ->
                  Q r w' (evs ++ d)) ->
  wp (download_loop E idx urls) Q X w evs.
Proof.
  induction urls as [|url rest IH]; intros idx Q X w evs H; cbn [download_loop].
  - wp_run. wp_leaf H.
  - wp_step. apply wp_download_from. intros [path|] w1 d1 Hs1 Hd1.
    + wp_step. now apply H.
    + apply IH. intros r w2 d2 Hs2 Hd2. rewrite <- app_assoc. apply H.
      * exact (same_session_trans _ _ _ Hs1 Hs2).
      * rewrite forallb_app, Hd1, Hd2. reflexivity.
Qed.

(** The fetcher never raises, leaves the session alone, and all it does is
    log, fetch and write. *)
Lemma wp_download_stealth_js E (Q : option string -> assertion) X w evs :
  (forall r w' d, same_session w w' -> forallb is_download_event d = true ->
                  Q r w' (evs ++ d)) ->
  wp (download_stealth_js E) Q X w evs.
Proof.
  intros H. unfold download_stealth_js. wp_run.
  - wp_leaf H.
  - apply wp_download_loop. exact H.
Qed.

(** One mirror that is unusable: the loop goes on, and nothing is written. *)
Lemma download_from_unusable E idx url w :
  mirror_unusable (requests_get E (ticks w) url) = true ->
  run_outcome (download_from E idx url w) = Returned None
  /\ run_world (download_from E idx url w) = tick w
  /\ count is_http (run_events (download_from E idx url w)) = 1
  /\ count is_file_write (run_events (download_from E idx url w)) = 0.
Proof.
  intros H.
  destruct (wp_returns (download_from E idx url)
              (fun r w' d => r = None /\ w' = tick w
                             /\ count is_http d = 1 /\ count is_file_write d = 0) w)
    as (r & -> & -> & Hw & Hcount); [|auto].
  unfold download_from. do 6 wp_step. apply wp_external.
  revert H. destruct (requests_get E (ticks w) url) as [text|e];
    cbn [mirror_unusable]; intros H; cbv beta.
  - rewrite H. wp_run. repeat split.
  - wp_run; repeat split.
Qed.

(** ** Session bootstrap *)

Lemma download_events_not_evaluate d :
  forallb is_download_event d = true -> forallb not_evaluate d = true.
Proof.
  induction d as [|ev d IH]; cbn; [reflexivity|].
  intros [Hev Hd]%andb_prop. rewrite (IH Hd). now destruct ev.
Qed.

Lemma download_events_no_assign d :
  forallb is_download_event d = true -> count is_assign d = 0.
Proof.
  unfold count. induction d as [|ev d IH]; cbn; [reflexivity|].
  intros [Hev Hd]%andb_prop. destruct ev; try discriminate; cbn; auto.
Qed.

(** Reading the cookies changes the identity token and nothing else, and
    assigns it at most once. *)
Lemma wp_capture_a1 cookies : forall (Q : unit -> assertion) X w evs,
  (forall v d,
     count is_assign d <= 1 -> forallb not_evaluate d = true ->
     Q tt (World (playwright_instance w) (browser_context w) (context_page w)
                 v (files w) (ticks w)) (evs ++ d)) ->
  wp (capture_a1 cookies) Q X w evs.
Proof.
  induction cookies as [|[name value] rest IH]; intros Q X w evs H; cbn [capture_a1].
  - wp_step. specialize (H (global_a1 w) []). rewrite app_nil_r in H.
    destruct w. apply H; [cbn; lia | reflexivity].
  - destruct (String.eqb name "a1").
    + wp_run. rewrite <- ?app_assoc. apply H; [cbn; lia | reflexivity].
    + now apply IH.
Qed.

(** [init_browser], whatever the outside does: it evaluates nothing in the
    page, assigns the identity token at most once and only after the page
    handle is set, never forgets a page, and has a page when it returns. *)
Lemma wp_init_browser E w :
  wp (init_browser E)
     (fun _ w' d => after_init w w' d /\ context_page w' <> None)
     (fun _ w' d => after_init w w' d)
     w [].
Proof.
  unfold init_browser.
  wp_step. do 3 (wp_step; wp_step). wp_step.
  apply wp_download_stealth_js. intros stealth w1 d1 (Hpw & Hctx & Hpage & Ha1) Hd1.
  pose proof (download_events_not_evaluate _ Hd1) as Hd1e.
  pose proof (download_events_no_assign _ Hd1) as Hd1a.
  destruct w1 as [pw1 ctx1 page1 a1 fs1 t1]. cbn in Hpw, Hctx, Hpage, Ha1. subst.
  wp_run.
  all: try (apply wp_capture_a1; intros v d2 Hd2a Hd2e; wp_run).
  all: wp_simpl; unfold after_init;
    rewrite ?forallb_app, ?count_app, ?Hd1e, ?Hd1a, ?Hd2e;
    cbn; repeat split; try lia; try discriminate; try tauto.
Qed.

(** The same, for a call made in the middle of a run. *)
Lemma wp_init_browser_within E (Q : unit -> assertion) X w evs :
  (forall w' d, after_init w w' d -> context_page w' <> None -> Q tt w' (evs ++ d)) ->
  (forall e w' d, after_init w w' d -> X e w' (evs ++ d)) ->
  wp (init_browser E) Q X w evs.
Proof.
  intros HQ HX. pose proof (wp_init_browser E w) as H. unfold wp in *.
  cbn [app] in H.
  destruct (run_outcome (init_browser E w)) as [[]|e].
  - destruct H. now apply HQ.
  - now apply HX.
Qed.

Lemma init_browser_run E w :
  after_init w (run_world (init_browser E w)) (run_events (init_browser E w))
  /\ (forall u, run_outcome (init_browser E w) = Returned u ->
                context_page (run_world (init_browser E w)) <> None).
Proof.
  pose proof (wp_init_browser E w) as H. unfold wp in H. cbn [app] in H.
  destruct (run_outcome (init_browser E w)) as [u|e].
  - destruct H. split; [assumption|]. intros _ _. assumption.
  - split; [assumption|]. discriminate.
Qed.

(** ** The HTTP layer *)

(** A view never raises, leaves the session and the files alone, and does
    not assign the identity token. *)
Lemma wp_view E req (Q : response -> assertion) X w evs :
  (forall resp w' d,
     same_session w w' -> files w' = files w -> count is_assign d = 0 ->
     Q resp w' (evs ++ d)) ->
  wp (view E req) Q X w evs.
Proof.
  intros H. unfold view.
  destruct (req_endpoint req);
    unfold sign_endpoint, health_check, get_a1, web_a1, index, not_found,
      framework_response, automatic_options.
  all: wp_run.
  all: try (apply wp_generate_sign; intros w1 d1 Hs1 Hf1 Hd1;
            pose proof (sign_events_no_assign _ Hd1) as Hd1a;
            split; intros; wp_run).
  all: rewrite <- ?app_assoc;
    try (match goal with |- _ _ _ ?l => is_var l; rewrite <- (app_nil_r l) end);
    apply H;
    [ first [ assumption | repeat split ]
    | first [ assumption | reflexivity ]
    | rewrite ?count_app;
      repeat match goal with Hx : count is_assign _ = 0 |- _ => rewrite Hx end;
      reflexivity ].
Qed.

Lemma assigned_once_no_page w evs :
  assigned_once w evs -> context_page w = None -> count is_assign evs = 0.
Proof. intros [H1 H2] Hp. destruct (count is_assign evs); [reflexivity|]. destruct H2; [lia|assumption]. Qed.

(** One request keeps the invariant of the run, and always produces a
    response. *)
Lemma wp_handle_request E req (Q : response -> assertion) X w evs :
  assigned_once w evs ->
  (forall resp w' evs', assigned_once w' evs' -> Q resp w' evs') ->
  wp (handle_request E req) Q X w evs.
Proof.
  intros Hinv HQ. unfold handle_request, ensure_browser.
  do 4 wp_step. cbv beta.
  destruct (context_page w) as [page|] eqn:Hpage.
  - wp_step. cbv beta. apply wp_view. intros resp w' d (_ & _ & Hp & _) _ Hd.
    apply HQ. destruct Hinv as [H1 H2]. unfold assigned_once.
    rewrite count_app, Hd, Nat.add_0_r, Hp, Hpage. split; [exact H1|discriminate].
  - pose proof (assigned_once_no_page _ _ Hinv Hpage) as Hzero.
    do 2 wp_step. cbv beta.
    apply wp_init_browser_within.
    + intros w1 d1 (_ & Hle & _ & _) Hp1. apply wp_view.
      intros resp w2 d2 (_ & _ & Hp2 & _) _ Hd2.
      apply HQ. unfold assigned_once.
      rewrite !count_app, Hzero, Hd2, Hp2. cbn. split; [lia|auto].
    + intros e w1 d1 (_ & Hle & Himp & _). unfold internal_error. wp_run.
      apply HQ. unfold assigned_once.
      rewrite !count_app, Hzero. cbn. split; [lia|]. intros. apply Himp. lia.
Qed.

Lemma wp_serve E reqs : forall (Q : list response -> assertion) X w evs,
  assigned_once w evs ->
  (forall resps w' evs', assigned_once w' evs' -> Q resps w' evs') ->
  wp (serve E reqs) Q X w evs.
Proof.
  induction reqs as [|req rest IH]; intros Q X w evs Hinv HQ; cbn [serve].
  - wp_step. now apply HQ.
  - wp_step. apply wp_handle_request; [assumption|].
    intros resp w1 evs1 Hinv1. wp_step. apply IH; [assumption|].
    intros resps w2 evs2 Hinv2. wp_step. now apply HQ.
Qed.

Lemma wp_main_init E (Q : unit -> assertion) X fs :
  (forall w' evs', assigned_once w' evs' -> Q tt w' evs') ->
  wp (main_init E) Q X (initial_world fs) [].
Proof.
  intros HQ. unfold main_init. wp_step. apply wp_init_browser_within.
  - intros w1 d1 (_ & Hle & Himp & _) _. apply HQ. now split.
  - intros e w1 d1 (_ & Hle & Himp & _). wp_run. apply HQ.
    unfold assigned_once. rewrite !count_app. cbn.
    split; [lia|]. intros. apply Himp. lia.
Qed.

Lemma run_eta {A} (r : run A) : Run (run_world r) (run_events r) (run_outcome r) = r.
Proof. now destruct r. Qed.

Lemma view_returns E req w : exists resp, run_outcome (view E req w) = Returned resp.
Proof.
  destruct (wp_returns (view E req) (fun _ _ _ => True) w) as (resp & H & _).
  - now apply wp_view.
  - now exists resp.
Qed.

(** With a page, the [before_request] hook does nothing: the request is
    the view's. *)
Lemma handle_request_ready E req w :
  context_page w <> None -> handle_request E req w = view E req w.
Proof.
  intros Hpage. destruct (view_returns E req w) as [resp Hresp].
  unfold handle_request.
  assert (Hensure : ensure_browser E w = Run w [] (Returned tt)).
  { unfold ensure_browser, bind, get_world. cbn [run_outcome run_world run_events].
    destruct (context_page w); [reflexivity|congruence]. }
  assert (Hm : bind (ensure_browser E) (fun _ => view E req) w = view E req w).
  { rewrite (bind_returned _ _ _ tt) by now rewrite Hensure.
    rewrite Hensure. cbn [run_world run_events app]. apply run_eta. }
  rewrite (try_except_returned _ _ _ resp) by now rewrite Hm.
  exact Hm.
Qed.

(** Without a page, the hook runs [init_browser] first; the view runs in the
    state it leaves when it returns, and the 500 handler answers when it
    raises. *)
Lemma handle_request_uninitialized E req w :
  context_page w = None ->
  let i := init_browser E w in
  let r := handle_request E req w in
  match run_outcome i with
  | Returned _ =>
      run_outcome r = run_outcome (view E req (run_world i))
      /\ run_world r = run_world (view E req (run_world i))
      /\ run_events r = EvLog WARNING :: run_events i ++ run_events (view E req (run_world i))
  | Raised e =>
      run_outcome r = Returned (server_error E e)
      /\ run_world r = run_world i
      /\ run_events r = EvLog WARNING :: run_events i ++ [EvLog ERROR]
  end.
Proof.
  intros Hpage. cbv zeta.
  assert (Hensure : ensure_browser E w
                    = Run (run_world (init_browser E w))
                          (EvLog WARNING :: run_events (init_browser E w))
                          (run_outcome (init_browser E w))).
  { unfold ensure_browser, bind, get_world, log, emit.
    cbn [run_outcome run_world run_events]. rewrite Hpage.
    cbn [run_outcome run_world run_events app]. reflexivity. }
  unfold handle_request.
  destruct (run_outcome (init_browser E w)) as [[]|e] eqn:Hinit.
  - destruct (view_returns E req (run_world (init_browser E w))) as [resp Hresp].
    assert (Hm : bind (ensure_browser E) (fun _ => view E req) w
                 = Run (run_world (view E req (run_world (init_browser E w))))
                       ((EvLog WARNING :: run_events (init_browser E w))
                          ++ run_events (view E req (run_world (init_browser E w))))
                       (run_outcome (view E req (run_world (init_browser E w))))).
    { rewrite (bind_returned _ _ _ tt) by now rewrite Hensure.
      now rewrite Hensure. }
    rewrite (try_except_returned _ _ _ resp) by now rewrite Hm.
    rewrite Hm. cbn [run_outcome run_world run_events app]. auto.
  - assert (Hm : bind (ensure_browser E) (fun _ => view E req) w
                 = Run (run_world (init_browser E w))
                       (EvLog WARNING :: run_events (init_browser E w)) (Raised e)).
    { rewrite (bind_raised _ _ _ e) by now rewrite Hensure.
      now rewrite Hensure. }
    rewrite (try_except_raised _ _ _ e) by now rewrite Hm.
    rewrite Hm. unfold internal_error, bind, log, emit, ret.
    cbn [run_outcome run_world run_events app]. rewrite ?app_nil_r. auto.
Qed.

(** A body that is false in a boolean context is turned away at once. *)
Lemma sign_endpoint_no_body E v w :
  truthy v = false ->
  sign_endpoint E (Returned v) w
  = Run w [EvLog ERROR] (Returned (rejection "Request body is required")).
Proof.
  intros Hv. apply wp_exact. unfold sign_endpoint.
  do 3 wp_step. cbv beta. rewrite Hv. cbn [negb]. wp_run. repeat split.
Qed.

(** So is a JSON object whose [uri] is false in a boolean context. *)
Lemma sign_endpoint_no_uri E d w :
  d <> [] -> truthy (dict_get d "uri" (PStr "")) = false ->
  sign_endpoint E (Returned (PDict d)) w
  = Run w [EvLog ERROR] (Returned (rejection "uri parameter is required")).
Proof.
  intros Hd Huri. apply wp_exact. unfold sign_endpoint.
  do 3 wp_step. cbv beta.
  replace (truthy (PDict d)) with true by (destruct d; [congruence|reflexivity]).
  cbn [negb]. do 2 wp_step. cbn [get_method]. cbv beta zeta. rewrite Huri.
  cbn [negb]. wp_run. repeat split.
Qed.

Lemma invalid_cases req_json :
  invalid req_json = true ->
  (exists v, req_json = Returned v /\ truthy v = false)
  \/ (exists d, req_json = Returned (PDict d) /\ d <> []
                 /\ truthy (dict_get d "uri" (PStr "")) = false).
Proof.
  unfold invalid, body_null, uri_absent_or_empty. intros H.
  destruct req_json as [v|e]; [|discriminate].
  destruct v as [| | | | |l|d]; try discriminate.
  - left. now exists PNone.
  - destruct d as [|kv d]; [left; now exists (PDict [])|].
    right. exists (kv :: d). repeat split; [discriminate|].
    cbn [orb] in H. unfold dict_get.
    destruct (dict_lookup (kv :: d) "uri") as [u|]; [|reflexivity].
    destruct u as [| | | |s| |]; try discriminate.
    destruct s; [reflexivity|discriminate].
Qed.

(** An invalid body is turned away by the view at once. *)
Lemma sign_endpoint_rejects E req_json w :
  invalid req_json = true ->
  exists msg, sign_endpoint E req_json w = Run w [EvLog ERROR] (Returned (rejection msg)).
Proof.
  intros [(v & -> & Hv)|(d & -> & Hd & Huri)]%invalid_cases.
  - eexists. now apply sign_endpoint_no_body.
  - eexists. now apply sign_endpoint_no_uri.
Qed.

(** What [get_json()] raises goes to the generic handler of the view. *)
Lemma sign_endpoint_unparsable E e w :
  sign_endpoint E (Raised e) w = Run w [EvLog ERROR] (Returned (sign_failure e)).
Proof. apply wp_exact. unfold sign_endpoint. wp_run. repeat split. Qed.

(** Malformed input never gets past the first lines of the view: one log
    record and a response that depends on the body alone, the 400 of the
    validation or the 500 of the generic handler. *)
Lemma sign_endpoint_turns_away E req_json :
  malformed req_json = true ->
  exists resp,
    (forall w, sign_endpoint E req_json w = Run w [EvLog ERROR] (Returned resp))
    /\ (invalid req_json = true -> exists msg, resp = rejection msg)
    /\ (forall e, req_json = Raised e -> resp = sign_failure e).
Proof.
  unfold malformed. destruct req_json as [v|e]; cbn [body_missing orb]; intros H.
  - destruct (invalid_cases _ H) as [(v' & Heq & Hv)|(d & Heq & Hd & Huri)];
      injection Heq as ->.
    + exists (rejection "Request body is required"). split; [|split].
      * intros w. now apply sign_endpoint_no_body.
      * eauto.
      * discriminate.
    + exists (rejection "uri parameter is required"). split; [|split].
      * intros w. now apply sign_endpoint_no_uri.
      * eauto.
      * discriminate.
  - exists (sign_failure e). split; [|split].
    + intros w. apply sign_endpoint_unparsable.
    + discriminate.
    + now intros e' [= <-].
Qed.

(** A body with a usable [uri] goes to the signing engine, and the response
    is made of what the engine returned or raised. *)
Lemma sign_endpoint_accepted E d w :
  d <> [] -> truthy (dict_get d "uri" (PStr "")) = true ->
  let g := generate_sign E (dict_get d "uri" (PStr "")) (dict_get d "data" PNone)
             (dict_get d "a1" (PStr "")) (dict_get d "web_session" (PStr ""))
             (dict_get d "web_id" (PStr "")) w in
  let r := sign_endpoint E (Returned (PDict d)) w in
  run_world r = run_world g
  /\ effects (run_events r) = effects (run_events g)
  /\ run_outcome r = Returned match run_outcome g with
                              | Returned result => Response 200 result
                              | Raised e => sign_failure e
                              end.
Proof.
  intros Hd Huri. cbv zeta.
  set (g := generate_sign E _ _ _ _ _ w).
  enough (H : wp (sign_endpoint E (Returned (PDict d)))
                (fun resp w' evs =>
                   w' = run_world g /\ effects evs = effects (run_events g)
                   /\ resp = match run_outcome g with
                             | Returned result => Response 200 result
                             | Raised e => sign_failure e
                             end)
                (fun _ _ _ => False) w []).
  { destruct (wp_returns _ _ _ H) as (resp & -> & -> & -> & ->). auto. }
  unfold sign_endpoint.
  do 3 wp_step. cbv beta.
  replace (truthy (PDict d)) with true by (destruct d; [congruence|reflexivity]).
  cbn [negb]. do 2 wp_step. cbn [get_method]. cbv beta zeta. rewrite Huri.
  cbn [negb]. do 6 wp_step. wp_step. cbv beta.
  unfold wp at 1. fold g.
  destruct (run_outcome g); wp_run;
    rewrite !effects_app; cbn [effects List.filter is_log negb app];
    rewrite ?app_nil_r; auto.
Qed.

(** ** Consequences for requests and calls *)

Lemma not_evaluate_count d :
  forallb not_evaluate d = true -> count is_evaluate d = 0.
Proof.
  unfold count, not_evaluate. induction d as [|ev d IH]; cbn; [reflexivity|].
  intros [Hev Hd]%andb_prop. destruct (is_evaluate ev); [discriminate|auto].
Qed.

(** A request whose view does nothing but log: the events of the request
    that are not log records, and the state it leaves, are those of the
    [before_request] hook. *)
Lemma handle_request_logs_only E req resp w :
  (forall w', view E req w' = Run w' [EvLog ERROR] (Returned resp)) ->
  let r := handle_request E req w in
  count is_evaluate (run_events r) = 0
  /\ (context_page w <> None -> r = Run w [EvLog ERROR] (Returned resp))
  /\ (context_page w = None ->
      run_world r = run_world (init_browser E w)
      /\ effects (run_events r) = effects (run_events (init_browser E w))
      /\ run_outcome r = match run_outcome (init_browser E w) with
                         | Returned _ => Returned resp
                         | Raised e => Returned (server_error E e)
                         end).
Proof.
  intros Hview. cbv zeta.
  assert (Hready : context_page w <> None ->
            handle_request E req w = Run w [EvLog ERROR] (Returned resp)).
  { intros Hpage. rewrite handle_request_ready by assumption. apply Hview. }
  destruct (context_page w) as [page|] eqn:Hpage.
  - rewrite Hready by discriminate. repeat split; discriminate.
  - pose proof (handle_request_uninitialized E req w Hpage) as H. cbv zeta in H.
    destruct (init_browser_run E w) as ((Hne & _) & _).
    apply not_evaluate_count in Hne.
    change (EvLog WARNING :: ?l) with ([EvLog WARNING] ++ l) in H.
    rewrite Hview in H.
    destruct (run_outcome (init_browser E w)) as [u|e];
      destruct H as (-> & -> & ->); rewrite !count_app, !effects_app, Hne;
      cbn [run_world run_events run_outcome]; repeat split; try congruence;
      cbn; now rewrite ?app_nil_r.
Qed.


(** The first attempt that returns ends the call: what it returns is the
    result, and no attempt or pause follows it. *)
Lemma attempt_returns E uri data a1 web_session web_id w j res :
  j < 10 ->
  (forall i, i < j -> attempt_fails E uri data w i) ->
  attempt_outcome E uri data w j = Returned res ->
  let r := generate_sign E uri data a1 web_session web_id w in
  run_outcome r = Returned res
  /\ effects (run_events r) = retry_effects (attempt_effects uri data w) (S j).
Proof.
  intros Hj Hbefore Hres. cbv zeta. unfold generate_sign.
  destruct (sign_loop_spec E uri data 10 0 w eq_refl ltac:(lia))
    as (n & Hn & Heff & _ & Hfail & Hout).
  cbv zeta in Heff, Hout.
  assert (n = S j) as ->.
  { destruct (Nat.lt_trichotomy (n - 1) j) as [Hlt|[Heq|Hgt]]; [|lia|].
    - destruct (Hbefore (n - 1) Hlt) as [e He].
      destruct (run_outcome (sign_loop E (seq 0 10) uri data w)).
      + congruence.
      + destruct Hout as (-> & _). lia.
    - destruct (Hfail j Hgt) as [e He]. congruence. }
  replace (S j - 1) with j in Hout by lia. split; [|exact Heff].
  destruct (run_outcome (sign_loop E (seq 0 10) uri data w)).
  - congruence.
  - destruct Hout as (_ & e' & He' & _). congruence.
Qed.

(** When [generate_sign] returns, its last attempt got a dict from the page
    and the result is made of that dict. *)
Lemma generate_sign_returned E uri data a1 web_session web_id w res :
  run_outcome (generate_sign E uri data a1 web_session web_id w) = Returned res ->
  exists d page j,
    context_page w = Some page /\ j < 10
    /\ page_evaluate E (j + ticks w) page uri data = Returned (PDict d)
    /\ res = PDict [("x-s", sig_value d); ("x-t", PStr (py_str E (ts_value d)))].
Proof.
  unfold generate_sign. intros Hres.
  destruct (sign_loop_spec E uri data 10 0 w eq_refl ltac:(lia))
    as (n & Hn & _ & _ & _ & Hout).
  cbv zeta in Hout. rewrite Hres in Hout.
  unfold attempt_outcome in Hout.
  destruct (context_page w) as [page|]; [|discriminate].
  destruct (page_evaluate E (n - 1 + ticks w) page uri data) as [v|e] eqn:Hv;
    [|discriminate].
  destruct v as [| | | | | |d]; try discriminate.
  exists d, page, (n - 1). repeat split; [lia|exact Hv|].
  cbn [extract_sign] in Hout.
  destruct (if truthy (sig_value d) then slice_prefix E 50 (sig_value d)
            else Returned (PStr "(空)")); congruence.
Qed.

(** Mirrors that are all unusable: the loop ends with [None], having
    fetched from each and written nothing. *)
Lemma download_loop_unusable E urls : forall idx w,
  (forall i url, urls !! i = Some url ->
                 mirror_unusable (requests_get E (i + ticks w) url) = true) ->
  let r := download_loop E idx urls w in
  run_outcome r = Returned None
  /\ files (run_world r) = files w
  /\ count is_http (run_events r) = length urls
  /\ count is_file_write (run_events r) = 0.
Proof.
  induction urls as [|url rest IH]; intros idx w Hall; cbv zeta; cbn [download_loop].
  - repeat split.
  - destruct (download_from_unusable E idx url w (Hall 0 url eq_refl))
      as (Hout & Hw & Hhttp & Hfw).
    rewrite (bind_returned _ _ _ _ Hout). cbn [run_outcome run_world run_events].
    rewrite Hw.
    destruct (IH (S idx) (tick w)) as (Hout' & Hfiles' & Hhttp' & Hfw').
    { intros i u Hu. cbn [tick ticks].
      replace (i + S (ticks w)) with (S i + ticks w) by lia.
      now apply (Hall (S i) u). }
    rewrite !count_app, Hhttp, Hfw, Hhttp', Hfw', Hout', Hfiles'.
    repeat split.
Qed.

(** The signing function appears at the third attempt: two pauses, three
    evaluations, and the third answer is the result. *)
Example third_attempt_signs :
  let E := scenario (fun t => Returned t) (fun _ _ _ => Returned tt)
             (fun t _ _ _ =>
                if Nat.ltb t 9
                then Raised (Exn "Error" "window._webmsxyw is not a function")
                else Returned signed) in
  let r := generate_sign E (PStr "/api") PNone (PStr "") (PStr "") (PStr "") ready_world in
  run_outcome r
  = Returned (PDict [("x-s", PStr "XYW_eyJzaWduIjoi"); ("x-t", PStr "1700000000000")])
  /\ effects (run_events r)
     = [EvEvaluate 3 (PStr "/api") PNone; EvSleep 500;
        EvEvaluate 3 (PStr "/api") PNone; EvSleep 500;
        EvEvaluate 3 (PStr "/api") PNone].
Proof. vm_compute. split; reflexivity. Qed.

(** * The behaviour the specification states *)

(** C1.  Every call to [generate_sign] makes between one and ten attempts,
    each with at most one evaluation in the page, so at most ten
    evaluations; two consecutive attempts are separated by one pause of
    500 ms and nothing else reaches the browser; every attempt before the
    last one made has raised.  When the call returns, it returns what its
    last attempt returned.  When all ten attempts raise, the call raises an
    Exception whose message is the terminal prefix followed by the message
    of the tenth attempt's exception, and [sign_endpoint] (and the whole
    request, when the session has its page) answers 500 with that message
    in the [error] field. *)
Theorem generate_sign_retries_ten_times E w uri data a1 web_session web_id :
  let r := generate_sign E uri data a1 web_session web_id w in
  (exists n,
     1 <= n <= 10
     /\ effects (run_events r) = retry_effects (attempt_effects uri data w) n
     /\ (forall j, j < n - 1 -> attempt_fails E uri data w j)
     /\ match run_outcome r with
        | Returned res => attempt_outcome E uri data w (n - 1) = Returned res
        | Raised e =>
            n = 10
            /\ exists e', attempt_outcome E uri data w 9 = Raised e'
                          /\ e = Exception (terminal_prefix ++ exn_msg e')
        end)
  /\ count is_evaluate (run_events r) <= 10
  /\ ((forall j, j < 10 -> attempt_fails E uri data w j) ->
      exists e,
        attempt_outcome E uri data w 9 = Raised e
        /\ run_outcome r = Raised (Exception (terminal_prefix ++ exn_msg e))
        /\ forall d,
             d <> [] -> dict_get d "uri" (PStr "") = uri -> truthy uri = true ->
             dict_get d "data" PNone = data ->
             let failure := sign_failure (Exception (terminal_prefix ++ exn_msg e)) in
             run_outcome (sign_endpoint E (Returned (PDict d)) w) = Returned failure
             /\ (context_page w <> None ->
                 run_outcome (handle_request E (Request POST_sign (Returned (PDict d))) w)
                 = Returned failure)).
Proof.
  cbv zeta. unfold generate_sign.
  destruct (sign_loop_spec E uri data 10 0 w eq_refl ltac:(lia))
    as (n & Hn & Heff & Hw & Hfail & Hout).
  cbv zeta in Heff, Hw, Hout.
  split; [|split].
  - exists n. repeat split; try lia; try assumption.
    destruct (run_outcome (sign_loop E (seq 0 10) uri data w)); [assumption|].
    destruct Hout as (-> & Hout). split; [reflexivity|exact Hout].
  - rewrite <- (count_effects is_evaluate) by now intros [].
    rewrite Heff. pose proof (retry_effects_evaluations uri data w n). lia.
  - intros Hall.
    destruct (run_outcome (sign_loop E (seq 0 10) uri data w)) as [res|e] eqn:Hrun.
    + destruct (Hall (n - 1) ltac:(lia)) as [e He]. congruence.
    + destruct Hout as (-> & e' & He' & ->). exists e'.
      split; [exact He'|]. split; [reflexivity|].
      intros d Hd Huri Htruthy Hdata. cbv zeta.
      assert (Hresp : run_outcome (sign_endpoint E (Returned (PDict d)) w)
                      = Returned (sign_failure (Exception (terminal_prefix ++ exn_msg e')))).
      { destruct (sign_endpoint_accepted E d w Hd) as (_ & _ & Hresp).
        { now rewrite Huri. }
        cbv zeta in Hresp. rewrite Hresp. unfold generate_sign.
        rewrite Huri, Hdata, Hrun. reflexivity. }
      split; [exact Hresp|].
      intros Hpage. rewrite handle_request_ready by assumption. exact Hresp.
Qed.

(** The signing function is never there, and the session has its page. *)
Lemma generate_sign_retries_ten_times_witness :
  let uri := PStr "/api/sns/web/v1/feed" in
  let failure :=
    sign_failure (Exception (terminal_prefix ++ "window._webmsxyw is not a function")) in
  count is_evaluate
    (run_events (generate_sign never_signs uri PNone (PStr "") (PStr "") (PStr "") ready_world))
  <= 10
  /\ run_outcome (handle_request never_signs
                    (Request POST_sign (Returned (PDict [("uri", uri)]))) ready_world)
     = Returned failure.
Proof.
  cbv zeta.
  pose proof (generate_sign_retries_ten_times never_signs ready_world
                (PStr "/api/sns/web/v1/feed") PNone (PStr "") (PStr "") (PStr ""))
    as (_ & Hcount & Hall).
  split; [exact Hcount|].
  destruct Hall as (e & He & _ & Hhttp).
  { intros j _. eexists. reflexivity. }
  injection He as <-.
  apply (Hhttp [("uri", PStr "/api/sns/web/v1/feed")]); try reflexivity; discriminate.
Defined.

(** C2.  The code at the input that breaks the claim: the script is on
    disk, the browser starts, the page is created, and the navigation to
    the home page raises.  [init_browser] re-raises, but the three handles
    it has assigned stay in the globals: the next [ensure_browser] sees a
    page and does nothing, the health check answers 200 "healthy", and a
    signing request spends its ten attempts on a page that never loaded,
    with no new initialization. *)
Theorem failed_navigation_keeps_page :
  let E := navigation_fails in
  let r := init_browser E (initial_world with_script) in
  let w := run_world r in
  let sign := Request POST_sign (Returned (PDict [("uri", PStr "/api/sns/web/v1/feed")])) in
  run_outcome r = Raised (Exn "TimeoutError" "Timeout 30000ms exceeded.")
  /\ (playwright_instance w, browser_context w, context_page w) = (Some 0, Some 2, Some 4)
  /\ ensure_browser E w = Run w [] (Returned tt)
  /\ status_of (handle_request E (Request GET_health (Returned PNone)) w) = Some 200
  /\ status_of (handle_request E sign w) = Some 500
  /\ effects (run_events (handle_request E sign w))
     = retry_effects [EvEvaluate 4 (PStr "/api/sns/web/v1/feed") PNone] 10.
Proof. vm_compute. repeat split. Qed.




(** C4, as stated, fails: the timestamp goes through [str] but the
    signature is passed on as it is.  Here the page answers with a list
    under "X-s"; the call succeeds and the "x-s" of its result is that list,
    not a string. *)
Lemma list_signature_passed_through :
  let r := generate_sign list_signature (PStr "/api/sns/web/v1/feed") PNone
             (PStr "") (PStr "") (PStr "") ready_world in
  run_outcome r = Returned (PDict [("x-s", PList [PStr "a"]); ("x-t", PStr "1")])
  /\ is_str (PList [PStr "a"]) = false.
Proof. vm_compute. split; reflexivity. Qed.

(** C4, amended.  When [generate_sign] returns, its result is a dict with
    exactly the keys "x-s" and "x-t", in this casing and this order, built
    from the dict [d] that the page returned to the last attempt: under
    "x-s" the value [d] has under "X-s", or else under "x-s", or else the
    empty string; under "x-t" the [str] of the value found in the same way
    under "X-t" or "x-t".  The "x-t" value is always a string; the "x-s"
    value is a string whenever the values of [d] under "X-s" and "x-s" are
    strings or missing. *)
Theorem generate_sign_result_shape E w uri data a1 web_session web_id res :
  run_outcome (generate_sign E uri data a1 web_session web_id w) = Returned res ->
  exists d page j x_t,
    (context_page w = Some page /\ j < 10
     /\ page_evaluate E (j + ticks w) page uri data = Returned (PDict d))
    /\ res = PDict [("x-s", sig_value d); ("x-t", PStr x_t)]
    /\ x_t = py_str E (ts_value d)
    /\ (forall v, truthy v = true ->
          (dict_lookup d "X-s" = Some v -> sig_value d = v)
          /\ (dict_lookup d "X-s" = None -> dict_lookup d "x-s" = Some v -> sig_value d = v)
          /\ (dict_lookup d "X-t" = Some v -> ts_value d = v)
          /\ (dict_lookup d "X-t" = None -> dict_lookup d "x-t" = Some v -> ts_value d = v))
    /\ ((forall k v, k = "X-s" \/ k = "x-s" -> dict_lookup d k = Some v -> is_str v = true) ->
        is_str (sig_value d) = true).
Proof.
  intros Hres.
  destruct (generate_sign_returned E uri data a1 web_session web_id w res Hres)
    as (d & page & j & Hpage & Hj & Hd & ->).
  exists d, page, j, (py_str E (ts_value d)).
  split; [auto|]. split; [reflexivity|]. split; [reflexivity|]. split.
  - intros v Hv. unfold sig_value, ts_value, py_or, dict_get.
    repeat split.
    + intros ->. now rewrite !Hv.
    + intros -> ->. cbn [truthy]. now rewrite Hv.
    + intros ->. now rewrite !Hv.
    + intros -> ->. cbn [truthy]. now rewrite Hv.
  - intros Hstr. unfold sig_value, py_or, dict_get.
    destruct (dict_lookup d "X-s") as [u|] eqn:Hu;
      destruct (dict_lookup d "x-s") as [l|] eqn:Hl; cbn [truthy];
      try pose proof (Hstr "X-s" u (or_introl eq_refl) Hu) as Hus;
      try pose proof (Hstr "x-s" l (or_intror eq_refl) Hl) as Hls;
      try (destruct (truthy u) eqn:Htu; rewrite ?Htu; cbn [truthy]);
      try (destruct (truthy l) eqn:Htl; rewrite ?Htl; cbn [truthy]);
      auto.
Qed.

(** The page answers with the lower-case keys and an integer timestamp. *)
Lemma generate_sign_result_shape_witness :
  let E := scenario (fun t => Returned t) (fun _ _ _ => Returned tt)
             (fun _ _ _ _ => Returned (PDict [("x-s", PStr "XYW_"); ("x-t", PInt 17)])) in
  let r := generate_sign E (PStr "/api") PNone (PStr "") (PStr "") (PStr "") ready_world in
  run_outcome r = Returned (PDict [("x-s", PStr "XYW_"); ("x-t", PStr "17")])
  /\ exists d x_t,
       run_outcome r = Returned (PDict [("x-s", sig_value d); ("x-t", PStr x_t)]).
Proof.
  cbv zeta.
  assert (Hres : run_outcome
            (generate_sign
               (scenario (fun t => Returned t) (fun _ _ _ => Returned tt)
                  (fun _ _ _ _ => Returned (PDict [("x-s", PStr "XYW_"); ("x-t", PInt 17)])))
               (PStr "/api") PNone (PStr "") (PStr "") (PStr "") ready_world)
          = Returned (PDict [("x-s", PStr "XYW_"); ("x-t", PStr "17")]))
    by (vm_compute; reflexivity).
  split; [exact Hres|].
  destruct (generate_sign_result_shape _ _ _ _ _ _ _ _ Hres)
    as (d & page & j & x_t & _ & Heq & _).
  exists d, x_t. rewrite Hres. now f_equal.
Defined.




(** C6, as stated, fails: a POST /sign without [uri] that reaches a
    process without a session starts the browser, loads the home page and
    reads the cookies before it is turned away. *)
Lemma malformed_request_starts_browser :
  let json := Returned (PDict [("data", PStr "{}")]) in
  let r := handle_request calm (Request POST_sign json) (initial_world ∅) in
  malformed json = true
  /\ run_outcome r = Returned (rejection "uri parameter is required")
  /\ count is_browser_event (run_events r) = 6
  /\ context_page (run_world r) = Some 6
  /\ global_a1 (run_world r) = "18c0ffee".
Proof. vm_compute. repeat split. Qed.

(** C6, amended.  Handling a POST /sign with no body (so that
    [get_json()] raises), a null body or a missing [uri] evaluates nothing
    in the page.  When the session has its page, the request leaves the
    whole state as it was and does nothing but write one log record.
    When it has none, the readiness check that precedes every request runs
    [init_browser] first: the state the request leaves, and what it does
    besides logging, are those of that initialization. *)
Theorem malformed_sign_request_frame E w json :
  malformed json = true ->
  let r := handle_request E (Request POST_sign json) w in
  count is_evaluate (run_events r) = 0
  /\ (context_page w <> None -> run_world r = w /\ run_events r = [EvLog ERROR])
  /\ (context_page w = None ->
      run_world r = run_world (init_browser E w)
      /\ effects (run_events r) = effects (run_events (init_browser E w))).
Proof.
  intros Hmal. cbv zeta.
  destruct (sign_endpoint_turns_away E json Hmal) as (resp & Hview & _).
  destruct (handle_request_logs_only E (Request POST_sign json) resp w Hview)
    as (Hcount & Hready & Hinit).
  split; [exact Hcount|]. split.
  - intros Hpage. rewrite (Hready Hpage). split; reflexivity.
  - intros Hpage. destruct (Hinit Hpage) as (Hw & Heff & _). split; assumption.
Qed.

(** A request without a body, sent to a server whose session is up. *)
Lemma malformed_sign_request_frame_witness :
  let r := handle_request calm (Request POST_sign no_body) ready_world in
  malformed no_body = true
  /\ run_world r = ready_world
  /\ run_events r = [EvLog ERROR].
Proof.
  cbv zeta.
  assert (Hmal : malformed no_body = true) by reflexivity.
  split; [exact Hmal|].
  apply (malformed_sign_request_frame calm ready_world _ Hmal). discriminate.
Defined.

(** C7, as stated, fails: a GET /health that arrives before the session page
    exists goes through the [before_request] hook, which creates the page;
    the answer is 200 "healthy", not 503. *)
Lemma health_before_page_answers_200 :
  let r := handle_request calm (Request GET_health (Returned PNone)) (initial_world ∅) in
  context_page (initial_world ∅) = None
  /\ (exists resp, run_outcome r = Returned resp /\ reports resp 200 "healthy" true)
  /\ status_of r <> Some 503.
Proof.
  vm_compute. split; [reflexivity|]. split; [|discriminate].
  eexists. split; [reflexivity|]. repeat split.
Qed.

(** C7, amended.  The view [health_check] answers 200 with status "healthy"
    and [browser_ready] true when it runs with a session page, and 503 with
    status "initializing" and [browser_ready] false when it runs without
    one.  A GET /health request that finds a page is answered by the view:
    200.  One that finds no page first goes through [init_browser]: when
    that returns there is a page and the answer is 200, when it raises the
    answer is the 500 of the application-wide handler.  No GET /health
    request is answered 503. *)
Theorem health_check_reports_page E w json :
  let r := handle_request E (Request GET_health json) w in
  (exists resp,
      run_outcome (health_check E w) = Returned resp
      /\ match context_page w with
         | Some _ => reports resp 200 "healthy" true
         | None => reports resp 503 "initializing" false
         end)
  /\ (context_page w <> None ->
      exists resp, run_outcome r = Returned resp /\ reports resp 200 "healthy" true)
  /\ (context_page w = None ->
      match run_outcome (init_browser E w) with
      | Returned _ =>
          exists resp, run_outcome r = Returned resp /\ reports resp 200 "healthy" true
      | Raised e => run_outcome r = Returned (server_error E e)
      end)
  /\ status_of r <> Some 503.
Proof.
  cbv zeta.
  assert (Hview : forall w', exists resp,
             run_outcome (health_check E w') = Returned resp
             /\ match context_page w' with
                | Some _ => reports resp 200 "healthy" true
                | None => reports resp 503 "initializing" false
                end).
  { intros w'. unfold health_check, bind, get_world, external, ret.
    cbn [run_outcome run_world run_events].
    eexists. split; [reflexivity|].
    destruct (context_page w'); repeat split. }
  assert (Hready : forall w', context_page w' <> None -> exists resp,
             run_outcome (handle_request E (Request GET_health json) w') = Returned resp
             /\ reports resp 200 "healthy" true).
  { intros w' Hpage. rewrite handle_request_ready by assumption.
    cbn [view req_endpoint]. destruct (Hview w') as (resp & Hresp & Hrep).
    exists resp. split; [exact Hresp|]. destruct (context_page w'); [exact Hrep|congruence]. }
  assert (Hinit : context_page w = None ->
             match run_outcome (init_browser E w) with
             | Returned _ =>
                 exists resp,
                   run_outcome (handle_request E (Request GET_health json) w) = Returned resp
                   /\ reports resp 200 "healthy" true
             | Raised e =>
                 run_outcome (handle_request E (Request GET_health json) w)
                 = Returned (server_error E e)
             end).
  { intros Hpage.
    pose proof (handle_request_uninitialized E (Request GET_health json) w Hpage) as H.
    cbv zeta in H.
    destruct (init_browser_run E w) as (_ & Hpage').
    destruct (run_outcome (init_browser E w)) as [u|e].
    - destruct H as (-> & _). cbn [view req_endpoint].
      destruct (Hview (run_world (init_browser E w))) as (resp & Hresp & Hrep).
      exists resp. split; [exact Hresp|].
      specialize (Hpage' u eq_refl).
      destruct (context_page (run_world (init_browser E w))); [exact Hrep|congruence].
    - now destruct H. }
  split; [apply Hview|]. split; [apply Hready|]. split; [exact Hinit|].
  unfold status_of.
  destruct (context_page w) as [page|] eqn:Hpage.
  - destruct (Hready w) as (resp & -> & Hst & _); [congruence|].
    rewrite Hst. discriminate.
  - specialize (Hinit eq_refl).
    destruct (run_outcome (init_browser E w)).
    + destruct Hinit as (resp & -> & Hst & _). rewrite Hst. discriminate.
    + rewrite Hinit. discriminate.
Qed.

(** C8.  A call to [generate_sign], whether it returns or raises, leaves
    the session as it was: the engine handle, the context handle, the page
    handle and the identity token are unchanged, and so are the files.  All
    it does is log, evaluate in the page and sleep: it reads no cookies,
    navigates nowhere and assigns no identity token.  No view assigns the
    identity token either; and along any run of the server, from its
    start-up initialization through any sequence of requests, the token is
    assigned at most once. *)
Theorem generate_sign_leaves_session E w uri data a1 web_session web_id :
  let r := generate_sign E uri data a1 web_session web_id w in
  same_session w (run_world r)
  /\ files (run_world r) = files w
  /\ forallb is_sign_event (run_events r) = true
  /\ (forall req w', count is_assign (run_events (view E req w')) = 0)
  /\ (forall fs reqs,
        count is_assign (run_events (serve E reqs (initial_world fs))) <= 1
        /\ count is_assign
             (run_events ((main_init E;; serve E reqs) (initial_world fs))) <= 1).
Proof.
  cbv zeta. unfold generate_sign.
  destruct (sign_loop_spec E uri data 10 0 w eq_refl ltac:(lia))
    as (n & _ & Heff & Hw & _).
  cbv zeta in Heff, Hw.
  split; [|split; [|split; [|split]]].
  - rewrite Hw. apply advance_same_session.
  - rewrite Hw. apply advance_files.
  - apply forallb_effects; [now intros []|].
    rewrite Heff. apply retry_effects_sign_events.
  - intros req w'.
    destruct (wp_returns (view E req) (fun _ _ d => count is_assign d = 0) w')
      as (resp & _ & H); [|exact H].
    apply wp_view. intros resp w1 d _ _ Hd. exact Hd.
  - intros fs reqs. split.
    + destruct (wp_returns (serve E reqs)
                  (fun _ w' d => assigned_once w' d) (initial_world fs))
        as (resps & _ & H & _); [|exact H].
      apply wp_serve; [|auto]. split; [cbn; lia|cbn; lia].
    + destruct (wp_returns (main_init E;; serve E reqs)
                  (fun _ w' d => assigned_once w' d) (initial_world fs))
        as (resps & _ & H & _); [|exact H].
      wp_step. apply wp_main_init. intros w1 evs1 Hinv1.
      apply wp_serve; auto.
Qed.

(** C9.  When a file exists at the canonical path, [download_stealth_js]
    returns that path after one log record: it fetches nothing, writes
    nothing and leaves the state, files included, as it was.  When no file
    exists there and each of the three mirrors, in order, raises or answers
    with fewer than 100 characters, it returns [None] without raising,
    having fetched once from each mirror and written nothing. *)
Theorem download_stealth_js_cached_or_absent E w :
  (is_Some (files w !! stealth_js_path) ->
   download_stealth_js E w = Run w [EvLog INFO] (Returned (Some stealth_js_path)))
  /\ (files w !! stealth_js_path = None ->
      (forall i url, cdn_urls !! i = Some url ->
                     mirror_unusable (requests_get E (i + ticks w) url) = true) ->
      let r := download_stealth_js E w in
      run_outcome r = Returned None
      /\ files (run_world r) = files w
      /\ count is_http (run_events r) = 3
      /\ count is_file_write (run_events r) = 0).
Proof.
  split.
  - intros Hsome. unfold download_stealth_js, bind, path_exists, log, emit, ret.
    cbn [run_outcome run_world run_events].
    rewrite bool_decide_eq_true_2 by exact Hsome.
    cbn [run_outcome run_world run_events app]. reflexivity.
  - intros Hnone Hall. cbv zeta.
    destruct (download_loop_unusable E cdn_urls 0 w Hall) as (Hout & Hfiles & Hhttp & Hfw).
    unfold download_stealth_js, bind, path_exists.
    cbn [run_outcome run_world run_events].
    rewrite bool_decide_eq_false_2 by (rewrite Hnone; now intros [? ?]).
    cbn [app]. rewrite Hout, Hfiles, Hhttp, Hfw. repeat split.
Qed.

(** The script is on disk; and it is not, with every mirror down. *)
Lemma download_stealth_js_cached_or_absent_witness :
  let cached := initial_world with_script in
  download_stealth_js calm cached = Run cached [EvLog INFO] (Returned (Some stealth_js_path))
  /\ run_outcome (download_stealth_js calm (initial_world ∅)) = Returned None.
Proof.
  cbv zeta. split.
  - apply (download_stealth_js_cached_or_absent calm (initial_world with_script)).
    vm_compute. eauto.
  - apply (download_stealth_js_cached_or_absent calm (initial_world ∅)).
    + reflexivity.
    + intros i url _. reflexivity.
Defined.




(** * Further properties of the code *)

(** ** The signing engine *)

Lemma total_sleep_app evs1 evs2 :
  total_sleep (evs1 ++ evs2) = total_sleep evs1 + total_sleep evs2.
Proof.
  induction evs1 as [|ev evs1 IH]; [reflexivity|].
  destruct ev; cbn [app total_sleep]; lia.
Qed.

Lemma total_sleep_effects evs : total_sleep (effects evs) = total_sleep evs.
Proof.
  unfold effects. induction evs as [|ev evs IH]; [reflexivity|].
  destruct ev; cbn [List.filter is_log negb total_sleep]; lia.
Qed.

(** What [k] attempts cost: [k - 1] pauses of 500 ms each. *)
Lemma retry_effects_pauses uri data w k :
  count is_sleep (retry_effects (attempt_effects uri data w) k) = k - 1
  /\ total_sleep (retry_effects (attempt_effects uri data w) k) = 500 * (k - 1).
Proof.
  assert (Ha : count is_sleep (attempt_effects uri data w) = 0
               /\ total_sleep (attempt_effects uri data w) = 0).
  { unfold attempt_effects. now destruct (context_page w). }
  destruct Ha as [Hc Ht].
  induction k as [|k IH]; [split; reflexivity|].
  destruct k as [|k]; [cbn [retry_effects]; split; [exact Hc|exact Ht]|].
  rewrite retry_effects_succ by lia. destruct IH as [IHc IHt].
  change (EvSleep 500 :: ?l) with ([EvSleep 500] ++ l).
  rewrite !count_app, !total_sleep_app, Hc, Ht, IHc, IHt.
  cbn [count List.filter is_sleep length total_sleep]. split; lia.
Qed.

Lemma retry_effects_page_evaluations uri data w page k :
  context_page w = Some page ->
  count is_evaluate (retry_effects (attempt_effects uri data w) k) = k.
Proof.
  intros Hpage.
  assert (Ha : count is_evaluate (attempt_effects uri data w) = 1).
  { unfold attempt_effects. now rewrite Hpage. }
  induction k as [|k IH]; [reflexivity|].
  destruct k as [|k]; [exact Ha|].
  rewrite retry_effects_succ by lia.
  change (EvSleep 500 :: ?l) with ([EvSleep 500] ++ l).
  rewrite !count_app, Ha, IH. cbn [count List.filter is_evaluate length]. lia.
Qed.

(** The pauses of a call to [generate_sign] are all of 500 ms; there are at
    most nine of them, 4.5 s in all, one fewer than the evaluations made in
    a page; and a call that raises has made all nine. *)
Theorem generate_sign_backoff_bounded E w uri data a1 web_session web_id :
  let r := generate_sign E uri data a1 web_session web_id w in
  count is_sleep (run_events r) <= 9
  /\ total_sleep (run_events r) = 500 * count is_sleep (run_events r)
  /\ (context_page w <> None ->
      count is_evaluate (run_events r) = S (count is_sleep (run_events r)))
  /\ ((exists e, run_outcome r = Raised e) ->
      count is_sleep (run_events r) = 9 /\ total_sleep (run_events r) = 4500).
Proof.
  cbv zeta. unfold generate_sign.
  destruct (sign_loop_spec E uri data 10 0 w eq_refl ltac:(lia))
    as (n & Hn & Heff & _ & _ & Hout).
  cbv zeta in Heff, Hout.
  destruct (retry_effects_pauses uri data w n) as [Hc Ht].
  rewrite <- (count_effects is_sleep) by now intros [].
  rewrite <- total_sleep_effects.
  rewrite <- (count_effects is_evaluate) by now intros [].
  rewrite Heff, Hc, Ht.
  split; [lia|]. split; [reflexivity|]. split.
  - intros Hpage. destruct (context_page w) as [page|] eqn:Hp; [|congruence].
    rewrite (retry_effects_page_evaluations uri data w page n Hp). lia.
  - intros [e He]. rewrite He in Hout. destruct Hout as (-> & _). split; reflexivity.
Qed.

(** The signing function answers at the attempt that follows [j] failed
    ones: the call returns that answer's result after exactly [j] pauses,
    [500 * j] ms, and [j + 1] evaluations, and a request with this [uri] and
    [data] is answered 200 with the result as its body. *)
Theorem generate_sign_succeeds_after_failures
        E w uri data a1 web_session web_id page j res :
  context_page w = Some page ->
  j < 10 ->
  (forall i, i < j -> attempt_fails E uri data w i) ->
  attempt_outcome E uri data w j = Returned res ->
  let r := generate_sign E uri data a1 web_session web_id w in
  run_outcome r = Returned res
  /\ count is_sleep (run_events r) = j
  /\ total_sleep (run_events r) = 500 * j
  /\ count is_evaluate (run_events r) = S j
  /\ forall d,
       d <> [] -> dict_get d "uri" (PStr "") = uri -> truthy uri = true ->
       dict_get d "data" PNone = data ->
       run_outcome (sign_endpoint E (Returned (PDict d)) w) = Returned (Response 200 res)
       /\ run_outcome (handle_request E (Request POST_sign (Returned (PDict d))) w)
          = Returned (Response 200 res).
Proof.
  intros Hpage Hj Hbefore Hres. cbv zeta.
  destruct (attempt_returns E uri data a1 web_session web_id w j res Hj Hbefore Hres)
    as (Hout & Heff).
  destruct (retry_effects_pauses uri data w (S j)) as [Hc Ht].
  rewrite <- (count_effects is_sleep) by now intros [].
  rewrite <- total_sleep_effects.
  rewrite <- (count_effects is_evaluate) by now intros [].
  rewrite Heff, Hc, Ht, (retry_effects_page_evaluations uri data w page (S j) Hpage).
  split; [exact Hout|]. split; [lia|]. split; [f_equal; lia|]. split; [reflexivity|].
  intros d Hd Huri Htruthy Hdata.
  assert (Hresp : run_outcome (sign_endpoint E (Returned (PDict d)) w)
                  = Returned (Response 200 res)).
  { destruct (sign_endpoint_accepted E d w Hd) as (_ & _ & Hresp).
    { now rewrite Huri. }
    cbv zeta in Hresp. rewrite Hresp. unfold generate_sign in *.
    rewrite Huri, Hdata, Hout. reflexivity. }
  split; [exact Hresp|].
  rewrite handle_request_ready by congruence. exact Hresp.
Qed.

(** The signing function appears at the third attempt. *)
Lemma generate_sign_succeeds_after_failures_witness :
  let E := scenario (fun t => Returned t) (fun _ _ _ => Returned tt)
             (fun t _ _ _ =>
                if Nat.ltb t 9
                then Raised (Exn "Error" "window._webmsxyw is not a function")
                else Returned signed) in
  let r := generate_sign E (PStr "/api") PNone (PStr "") (PStr "") (PStr "") ready_world in
  count is_sleep (run_events r) = 2 /\ total_sleep (run_events r) = 1000.
Proof.
  cbv zeta.
  pose proof (generate_sign_succeeds_after_failures
                (scenario (fun t => Returned t) (fun _ _ _ => Returned tt)
                   (fun t _ _ _ =>
                      if Nat.ltb t 9
                      then Raised (Exn "Error" "window._webmsxyw is not a function")
                      else Returned signed))
                ready_world (PStr "/api") PNone (PStr "") (PStr "") (PStr "") 3 2
                (PDict [("x-s", PStr "XYW_eyJzaWduIjoi"); ("x-t", PStr "1700000000000")])
                eq_refl ltac:(lia)) as H.
  destruct H as (_ & Hc & Ht & _).
  - intros i Hi. destruct i as [|[|i]]; [eexists; reflexivity..|lia].
  - reflexivity.
  - split; [exact Hc|exact Ht].
Defined.

(** Without a page, [generate_sign] reaches nothing: each of its ten
    attempts fails on the attribute access, it sleeps nine times, and it
    raises the terminal error around that AttributeError; the state is
    left exactly as it was. *)
Theorem generate_sign_without_page E w uri data a1 web_session web_id :
  context_page w = None ->
  let r := generate_sign E uri data a1 web_session web_id w in
  run_outcome r
  = Raised (Exception (terminal_prefix ++ "'NoneType' object has no attribute 'evaluate'"))
  /\ effects (run_events r) = repeat (EvSleep 500) 9
  /\ run_world r = w.
Proof.
  intros Hpage. cbv zeta. unfold generate_sign.
  destruct (sign_loop_spec E uri data 10 0 w eq_refl ltac:(lia))
    as (n & Hn & Heff & Hw & _ & Hout).
  cbv zeta in Heff, Hw, Hout.
  assert (Hfail : forall j, attempt_outcome E uri data w j
            = Raised (AttributeError "'NoneType' object has no attribute 'evaluate'")).
  { intros j. unfold attempt_outcome. now rewrite Hpage. }
  destruct (run_outcome (sign_loop E (seq 0 10) uri data w)) as [res|e].
  - rewrite Hfail in Hout. discriminate.
  - destruct Hout as (-> & e' & He' & ->). rewrite Hfail in He'. injection He' as <-.
    split; [reflexivity|]. split.
    + rewrite Heff. unfold attempt_effects. rewrite Hpage. reflexivity.
    + rewrite Hw. unfold advance. now rewrite Hpage.
Qed.

(** A process that never got a session. *)
Lemma generate_sign_without_page_witness :
  count is_sleep
    (run_events (generate_sign calm (PStr "/api") PNone (PStr "") (PStr "") (PStr "")
                   (initial_world ∅))) = 9.
Proof.
  destruct (generate_sign_without_page calm (initial_world ∅) (PStr "/api") PNone
              (PStr "") (PStr "") (PStr "") eq_refl) as (_ & Heff & _).
  rewrite <- (count_effects is_sleep) by now intros [].
  rewrite Heff. reflexivity.
Defined.

(** An attempt accepts exactly the usable answers.  From a dict whose
    signature is empty, a string or a list it makes the result; anything
    else raises inside the [try] block: a value that is not a dict, with
    the message naming its type, and a dict whose signature is a number, a
    boolean or a dict, on the slice [x_s[:50]] of the log record.  A failed
    attempt that is not the last is followed by the 500 ms pause and the
    loop goes on. *)
Theorem sign_attempt_accepts_usable_answers E uri data w page v :
  context_page w = Some page ->
  page_evaluate E (ticks w) page uri data = Returned v ->
  let r := sign_attempt E uri data w in
  (usable_answer v = true ->
   exists d, v = PDict d
     /\ run_outcome r
        = Returned (PDict [("x-s", sig_value d); ("x-t", PStr (py_str E (ts_value d)))]))
  /\ (usable_answer v = false ->
      (exists e,
          run_outcome r = Raised e
          /\ match v with
             | PDict d =>
                 match sig_value d with
                 | PDict _ => e = dict_slice_error E
                 | u => e = TypeError ("'" ++ type_name u ++ "' object is not subscriptable")
                 end
             | _ => e = Exception ("签名函数返回值不是字典: <class '" ++ type_name v ++ "'>")
             end)
      /\ forall attempt, attempt <> 9 ->
           run_outcome (sign_once E attempt uri data w) = Returned None
           /\ effects (run_events (sign_once E attempt uri data w))
              = [EvEvaluate page uri data; EvSleep 500]).
Proof.
  intros Hpage Hv. cbv zeta.
  destruct (sign_attempt_spec E uri data w) as (Hout & _ & _).
  assert (Hatt : attempt_outcome E uri data w 0 = extract_sign E v).
  { unfold attempt_outcome. rewrite Hpage. cbn [Nat.add]. now rewrite Hv. }
  rewrite Hout, Hatt. split.
  - intros Hus. destruct v as [| | | | | |d]; try discriminate.
    exists d. split; [reflexivity|]. cbn [usable_answer] in Hus. cbn [extract_sign].
    destruct (truthy (sig_value d)); [|reflexivity].
    cbn [negb orb] in Hus. destruct (sig_value d); try discriminate; reflexivity.
  - intros Hus.
    assert (Hraised : exists e, extract_sign E v = Raised e
              /\ match v with
                 | PDict d =>
                     match sig_value d with
                     | PDict _ => e = dict_slice_error E
                     | u => e = TypeError ("'" ++ type_name u
                                           ++ "' object is not subscriptable")
                     end
                 | _ => e = Exception ("签名函数返回值不是字典: <class '"
                                       ++ type_name v ++ "'>")
                 end).
    { destruct v as [| | | | | |d]; try (eexists; split; reflexivity).
      cbn [usable_answer] in Hus. cbn [extract_sign].
      destruct (truthy (sig_value d)); [|discriminate].
      cbn [negb orb] in Hus.
      destruct (sig_value d); try discriminate; eexists; split; reflexivity. }
    split; [exact Hraised|].
    destruct Hraised as (e & He & _).
    intros attempt Hne.
    destruct (sign_once_spec E uri data attempt w) as (_ & Hrun). cbv zeta in Hrun.
    rewrite Hatt, He in Hrun.
    replace (Nat.eqb attempt 9) with false in Hrun
      by (symmetry; now apply Nat.eqb_neq).
    destruct Hrun as (-> & ->). unfold attempt_effects. rewrite Hpage. auto.
Qed.

(** The page answers with a number where the signature goes. *)
Lemma sign_attempt_accepts_usable_answers_witness :
  let E := scenario (fun t => Returned t) (fun _ _ _ => Returned tt)
             (fun _ _ _ _ => Returned (PDict [("X-s", PInt 7); ("X-t", PInt 1)])) in
  run_outcome (sign_attempt E (PStr "/api") PNone ready_world)
  = Raised (TypeError "'int' object is not subscriptable").
Proof.
  cbv zeta.
  pose proof (sign_attempt_accepts_usable_answers
                (scenario (fun t => Returned t) (fun _ _ _ => Returned tt)
                   (fun _ _ _ _ => Returned (PDict [("X-s", PInt 7); ("X-t", PInt 1)])))
                (PStr "/api") PNone ready_world 3 _ eq_refl eq_refl) as (_ & H).
  destruct (H eq_refl) as ((e & -> & He) & _).
  cbn in He. now subst e.
Defined.

(** ** The views *)

(** A JSON body that is not an object but is true in a boolean context (a
    non-empty array or string, a non-zero number, [true]) passes the
    emptiness test and fails on [json_data.get]: the view answers 500 with
    [error_type] AttributeError, not 400, and nothing is evaluated. *)
Theorem sign_endpoint_non_object_body E v w :
  truthy v = true ->
  (forall d, v <> PDict d) ->
  let failure :=
    sign_failure (AttributeError ("'" ++ type_name v ++ "' object has no attribute 'get'")) in
  sign_endpoint E (Returned v) w = Run w [EvLog ERROR] (Returned failure)
  /\ status failure = 500
  /\ field failure "error_type" = Some (PStr "AttributeError")
  /\ (context_page w <> None ->
      handle_request E (Request POST_sign (Returned v)) w
      = Run w [EvLog ERROR] (Returned failure)).
Proof.
  intros Hv Hnd. cbv zeta.
  assert (H : sign_endpoint E (Returned v) w
              = Run w [EvLog ERROR]
                  (Returned (sign_failure (AttributeError
                     ("'" ++ type_name v ++ "' object has no attribute 'get'"))))).
  { apply wp_exact. unfold sign_endpoint.
    do 3 wp_step. cbv beta. rewrite Hv. cbn [negb]. do 2 wp_step.
    destruct v as [| | | | | |d]; cbn [get_method]; [| | | | | |now destruct (Hnd d)];
      wp_run; repeat split. }
  repeat split; try exact H.
  intros Hpage. rewrite handle_request_ready by assumption. exact H.
Qed.

(** The body is the JSON array [[1]]. *)
Lemma sign_endpoint_non_object_body_witness :
  status_of (handle_request calm (Request POST_sign (Returned (PList [PInt 1]))) ready_world)
  = Some 500.
Proof.
  destruct (sign_endpoint_non_object_body calm (PList [PInt 1]) ready_world eq_refl)
    as (_ & _ & _ & H).
  - discriminate.
  - unfold status_of. rewrite H by discriminate. reflexivity.
Defined.

Lemma bind_congruence {A B} (m m' : M A) (k : A -> M B) w w' :
  m w = m' w' -> bind m k w = bind m' k w'.
Proof. intros H. unfold bind. now rewrite H. Qed.

Lemma try_except_congruence {A} (m m' : M A) h w w' :
  m w = m' w' -> try_except m h w = try_except m' h w'.
Proof. intros H. unfold try_except. now rewrite H. Qed.

Lemma bind_lift_returned {A B} (a : A) (k : A -> M B) w :
  bind (lift (Returned a)) k w = k a w.
Proof.
  unfold bind, lift. cbn [run_outcome run_world run_events app]. apply run_eta.
Qed.

(** The fields [a1], [web_session] and [web_id] of a request are read and
    then ignored: two bodies with the same [uri] and [data] get the same
    response, by the same effects, whatever else they carry. *)
Theorem sign_endpoint_ignores_identity_fields E d d' w :
  d <> [] -> d' <> [] ->
  dict_get d "uri" (PStr "") = dict_get d' "uri" (PStr "") ->
  dict_get d "data" PNone = dict_get d' "data" PNone ->
  sign_endpoint E (Returned (PDict d)) w = sign_endpoint E (Returned (PDict d')) w.
Proof.
  intros Hd Hd' Huri Hdata. unfold sign_endpoint.
  apply try_except_congruence. rewrite !bind_lift_returned.
  replace (truthy (PDict d)) with true by (destruct d; [congruence|reflexivity]).
  replace (truthy (PDict d')) with true by (destruct d'; [congruence|reflexivity]).
  cbn [negb]. cbn [get_method]. rewrite !bind_lift_returned.
  cbv zeta. unfold generate_sign. rewrite Huri, Hdata. reflexivity.
Qed.

(** The same request with and without the identity fields. *)
Lemma sign_endpoint_ignores_identity_fields_witness :
  sign_endpoint calm
    (Returned (PDict [("uri", PStr "/api"); ("a1", PStr "0ther"); ("web_id", PStr "f00d")]))
    ready_world
  = sign_endpoint calm (Returned (PDict [("uri", PStr "/api")])) ready_world.
Proof.
  apply sign_endpoint_ignores_identity_fields; try discriminate; reflexivity.
Defined.

(** ** Runs of the server *)


(** The consequence rule, for a run that never raises. *)
Lemma wp_conseq_returns {A} (m : M A) (Q Q' : A -> assertion) X w evs :
  wp m Q' (fun _ _ _ => False) w evs ->
  (forall a w' evs', Q' a w' evs' -> Q a w' evs') ->
  wp m Q X w evs.
Proof. unfold wp. destruct (run_outcome (m w)); [auto|tauto]. Qed.

Lemma sign_events_are_view_events d :
  forallb is_sign_event d = true -> forallb is_view_event d = true.
Proof.
  induction d as [|ev d IH]; cbn; [reflexivity|].
  intros [Hev Hd]%andb_prop. rewrite (IH Hd). now destruct ev.
Qed.

Lemma answers_answered req resp : answers req resp -> answered resp.
Proof.
  unfold answers, served, answered.
  destruct (req_endpoint req); cbn; intuition auto.
Qed.

(** A view that runs with a session page: it returns one of the status
    codes of its route, leaves the session and the files alone, and does
    nothing but log, evaluate, sleep and read the clock. *)
Lemma wp_view_ready E req (Q : response -> assertion) X w evs :
  context_page w <> None ->
  (forall resp w' d,
     same_session w w' -> files w' = files w -> forallb is_view_event d = true ->
     served req resp -> Q resp w' (evs ++ d)) ->
  wp (view E req) Q X w evs.
Proof.
  intros Hpage H. unfold view.
  destruct (context_page w) as [page|] eqn:Hp; [clear Hpage|congruence].
  destruct (req_endpoint req) eqn:Hreq;
    unfold sign_endpoint, health_check, get_a1, web_a1, index, not_found,
      framework_response, automatic_options.
  all: wp_run.
  all: try (apply wp_generate_sign; intros w1 d1 Hs1 Hf1 Hd1;
            pose proof (sign_events_are_view_events _ Hd1) as Hd1v;
            split; intros; wp_run).
  all: rewrite <- ?app_assoc;
    try (match goal with |- _ _ _ ?l => is_var l; rewrite <- (app_nil_r l) end);
    apply H;
    [ first [ assumption | repeat split ]
    | first [ assumption | reflexivity ]
    | rewrite ?forallb_app;
      repeat match goal with Hx : forallb is_view_event _ = true |- _ => rewrite Hx end;
      reflexivity
    | unfold served; rewrite Hreq; cbn [status jsonify]; rewrite ?Hp; cbn; tauto ].
Qed.

Lemma wp_handle_request_ready E req (Q : response -> assertion) X w evs :
  context_page w <> None ->
  (forall resp w' d,
     same_session w w' -> files w' = files w -> forallb is_view_event d = true ->
     served req resp -> Q resp w' (evs ++ d)) ->
  wp (handle_request E req) Q X w evs.
Proof.
  intros Hpage H. unfold wp. rewrite handle_request_ready by assumption.
  now apply wp_view_ready.
Qed.

(** Once the session has its page, no sequence of requests changes it:
    the three handles and the identity token stay as they are, no file is
    written, and nothing is started, navigated, fetched or read from the
    cookies.  Every request gets one response, with the status of its
    route: 200, 400 or 500 for POST /sign, 200 for the other views, 404
    for a path without route, and Flask's own 405 for a route asked with
    a method it does not accept (GET /sign), 200 for OPTIONS and 308 for a
    path it normalises. *)
Theorem serve_keeps_session E reqs : forall w,
  context_page w <> None ->
  let r := serve E reqs w in
  same_session w (run_world r)
  /\ files (run_world r) = files w
  /\ forallb is_view_event (run_events r) = true
  /\ exists resps,
       run_outcome r = Returned resps
       /\ length resps = length reqs
       /\ Forall2 served reqs resps
       /\ Forall answered resps.
Proof.
  intros w Hpage. cbv zeta.
  enough (H : forall evs, wp (serve E reqs)
                (fun resps w' evs' =>
                   same_session w w' /\ files w' = files w
                   /\ (forallb is_view_event evs = true ->
                       forallb is_view_event evs' = true)
                   /\ length resps = length reqs
                   /\ Forall2 served reqs resps /\ Forall answered resps)
                (fun _ _ _ => False) w evs).
  { destruct (wp_returns _ _ _ (H []))
      as (resps & Hout & Hs & Hf & Hev & Hlen & Hall2 & Hall).
    repeat split; try apply Hs; auto. exists resps. auto. }
  revert w Hpage.
  induction reqs as [|req rest IH]; intros w Hpage evs; cbn [serve].
  - wp_step. repeat split; auto.
  - wp_step. apply wp_handle_request_ready; [assumption|].
    intros resp w1 d1 Hs1 Hf1 Hd1 Hst. wp_step.
    assert (Hpage1 : context_page w1 <> None).
    { destruct Hs1 as (_ & _ & -> & _). assumption. }
    apply (wp_conseq_returns (serve E rest) _ _ _ _ _ (IH w1 Hpage1 (evs ++ d1))).
    intros resps w2 evs2 (Hs2 & Hf2 & Hev2 & Hlen & Hall2 & Hall). wp_step.
    repeat split; try (apply (same_session_trans _ _ _ Hs1 Hs2)).
    + congruence.
    + intros Hevs. apply Hev2. now rewrite forallb_app, Hevs, Hd1.
    + cbn [length]. now rewrite Hlen.
    + now constructor.
    + constructor; [exact (answers_answered _ _ (or_introl Hst))|assumption].
Qed.

(** A server whose session is up. *)
Lemma serve_keeps_session_witness :
  let reqs := [Request POST_sign (Returned PNone); Request GET_health (Returned PNone);
               Request POST_sign (Returned (PDict [("uri", PStr "/api")]));
               Request Unmatched (Returned PNone); Request Disallowed (Returned PNone)] in
  same_session ready_world (run_world (serve calm reqs ready_world))
  /\ files (run_world (serve calm reqs ready_world)) = files ready_world.
Proof.
  cbv zeta.
  pose proof (serve_keeps_session calm
                [Request POST_sign (Returned PNone); Request GET_health (Returned PNone);
                 Request POST_sign (Returned (PDict [("uri", PStr "/api")]));
                 Request Unmatched (Returned PNone); Request Disallowed (Returned PNone)]
                ready_world) as H.
  destruct H as (Hs & Hf & _); [discriminate|]. split; [exact Hs|exact Hf].
Defined.

(** One request, in any state: it is answered, with a status of its route
    or the 500 of the application-wide handler. *)
Lemma handle_request_answered E req w :
  exists resp, run_outcome (handle_request E req w) = Returned resp /\ answers req resp.
Proof.
  destruct (context_page w) as [page|] eqn:Hpage.
  - destruct (wp_returns (handle_request E req) (fun resp _ _ => served req resp) w)
      as (resp & Hout & Hst).
    + apply wp_handle_request_ready; [congruence|]. auto.
    + exists resp. split; [assumption|now left].
  - pose proof (handle_request_uninitialized E req w Hpage) as H. cbv zeta in H.
    destruct (init_browser_run E w) as (_ & Hpage').
    destruct (run_outcome (init_browser E w)) as [u|e].
    + destruct H as (-> & _).
      destruct (wp_returns (view E req) (fun resp _ _ => served req resp)
                  (run_world (init_browser E w))) as (resp & Hout & Hst).
      * apply wp_view_ready; [now apply (Hpage' u)|]. auto.
      * exists resp. split; [assumption|now left].
    + destruct H as (-> & _). eexists. split; [reflexivity|]. now right.
Qed.

(** The application never lets an exception of its own code out: whatever
    the outside does and whatever the state, every request of a run gets
    exactly one response, with a status of its route or the 500 of the
    application-wide handler.  So the statuses are 200, 400, 404 and 500,
    and the 405 and 308 that Flask gives by itself; the 503 of the health
    view never leaves the server. *)
Theorem serve_answers_every_request E reqs : forall w,
  exists resps,
    run_outcome (serve E reqs w) = Returned resps
    /\ length resps = length reqs
    /\ Forall2 answers reqs resps
    /\ Forall answered resps.
Proof.
  induction reqs as [|req rest IH]; intros w; cbn [serve].
  - exists []. repeat split; constructor.
  - destruct (handle_request_answered E req w) as (resp & Hresp & Hst).
    rewrite (bind_returned _ _ _ _ Hresp). cbn [run_outcome].
    destruct (IH (run_world (handle_request E req w)))
      as (resps & Hresps & Hlen & Hall2 & Hall).
    rewrite (bind_returned _ _ _ _ Hresps). cbn [run_outcome ret].
    exists (resp :: resps). repeat split.
    + cbn [length]. now rewrite Hlen.
    + now constructor.
    + constructor; [exact (answers_answered _ _ Hst)|assumption].
Qed.

(** ** The bootstrap of the session *)

Ltac wp_case :=
  lazymatch goal with
  | |- wp (match ?x with _ => _ end) _ _ _ _ => destruct x eqn:?
  | |- match ?x with _ => _ end => destruct x eqn:?
  end.

Ltac wp_run_eq := repeat (wp_simpl; first [wp_case | wp_step]).

(** The loop over the cookies, in closed form. *)
Lemma capture_a1_run cookies w :
  capture_a1 cookies w
  = Run (World (playwright_instance w) (browser_context w) (context_page w)
               (default (global_a1 w) (first_a1 cookies)) (files w) (ticks w))
        (match first_a1 cookies with
         | Some v => [EvAssignA1 v; EvLog INFO; EvLog INFO]
         | None => []
         end)
        (Returned tt).
Proof.
  induction cookies as [|[name value] rest IH]; cbn [capture_a1 first_a1].
  - now destruct w.
  - destruct (String.eqb name "a1"); [|exact IH].
    apply wp_exact. wp_run. repeat split.
Qed.

Lemma wp_capture_a1_exact cookies (Q : unit -> assertion) X w evs :
  Q tt (World (playwright_instance w) (browser_context w) (context_page w)
              (default (global_a1 w) (first_a1 cookies)) (files w) (ticks w))
       (evs ++ match first_a1 cookies with
               | Some v => [EvAssignA1 v; EvLog INFO; EvLog INFO]
               | None => []
               end) ->
  wp (capture_a1 cookies) Q X w evs.
Proof. intros H. unfold wp. rewrite capture_a1_run. exact H. Qed.

Lemma follow_app script ph evs1 evs2 :
  follow script ph (evs1 ++ evs2)
  = match follow script ph evs1 with
    | Some ph' => follow script ph' evs2
    | None => None
    end.
Proof.
  revert ph. induction evs1 as [|ev evs1 IH]; intros ph; cbn [app follow]; [reflexivity|].
  destruct (next_phase script ph ev); [apply IH|reflexivity].
Qed.

Lemma follow_download script d :
  forallb is_download_event d = true ->
  follow script Fetching (effects d) = Some Fetching.
Proof.
  unfold effects. induction d as [|ev d IH]; cbn; [reflexivity|].
  intros [Hev Hd]%andb_prop. destruct ev; try discriminate; cbn; auto.
Qed.

Lemma download_events_no_goto d :
  forallb is_download_event d = true -> count is_goto d = 0 /\ count is_start d = 0.
Proof.
  unfold count. induction d as [|ev d IH]; cbn; [auto|].
  intros [Hev Hd]%andb_prop. destruct ev; try discriminate; cbn; auto.
Qed.

Ltac in_events :=
  lazymatch goal with
  | |- In ?x (_ ++ ?x :: _) => apply in_or_app; right; left; reflexivity
  | |- In _ (_ ++ _) => apply in_or_app; left; in_events
  end.

Ltac follow_events Hd1f :=
  rewrite ?effects_app, ?follow_app;
  repeat (cbn [effects List.filter is_log negb follow next_phase
               String.eqb Ascii.eqb Bool.eqb home_url Nat.eqb];
          rewrite ?Hd1f, ?String.eqb_refl);
  reflexivity.

Ltac trace_leaf Hout Hd1f Hd1g Hd1s :=
  unfold bootstrap_trace; split; [|split; [|split]];
  [ eexists _, _; split; [exact Hout|follow_events Hd1f]
  | rewrite ?count_app, ?Hd1s; reflexivity
  | rewrite ?count_app, ?Hd1g; cbn [count List.filter is_goto length Nat.add];
    intros Hgoto; first [ discriminate Hgoto | split; reflexivity ]
  | rewrite ?count_app, ?Hd1g; cbn [count List.filter is_goto length Nat.add];
    intros Hgoto; first [ now destruct Hgoto | eexists; split; [reflexivity|in_events] ] ].

(** [init_browser], step by step. *)
(** The rule of the fetcher, with what it returned. *)
Lemma wp_download_stealth_js_run E (Q : option string -> assertion) X w evs :
  (forall r w' d,
     run_outcome (download_stealth_js E w) = Returned r ->
     same_session w w' -> forallb is_download_event d = true -> Q r w' (evs ++ d)) ->
  wp (download_stealth_js E) Q X w evs.
Proof.
  intros H.
  destruct (wp_returns (download_stealth_js E)
              (fun _ w' d => same_session w w' /\ forallb is_download_event d = true) w)
    as (r & Hout & Hs & Hd).
  { apply wp_download_stealth_js. auto. }
  unfold wp. rewrite Hout. now apply H.
Qed.

Lemma wp_init_browser_trace E w :
  wp (init_browser E)
     (fun _ w' d => bootstrap_trace E w w' d /\ bootstrapped E w w' d)
     (fun _ w' d => bootstrap_trace E w w' d)
     w [].
Proof.
  unfold init_browser.
  wp_step. do 3 (wp_step; wp_step). wp_step.
  apply wp_download_stealth_js_run.
  intros stealth w1 d1 Hout (Hpw & Hctx & Hpage & Ha1) Hd1.
  pose proof (fun script => follow_download script _ Hd1) as Hd1f.
  destruct (download_events_no_goto _ Hd1) as [Hd1g Hd1s].
  destruct w1 as [pw1 ctx1 page1 a1 fs1 t1]. cbn in Hpw, Hctx, Hpage, Ha1. subst.
  destruct stealth as [path|].
  all: wp_run_eq.
  all: try (apply wp_capture_a1_exact; destruct (first_a1 _) as [token|] eqn:Htoken;
            wp_run_eq).
  all: wp_simpl.
  all: try (split; [trace_leaf Hout Hd1f Hd1g Hd1s|]).
  all: try solve [trace_leaf Hout Hd1f Hd1g Hd1s].
  all: unfold bootstrapped; split;
    [ eexists _, _; split; [exact Hout|]; split; [follow_events Hd1f | auto]
    | do 5 eexists; split; [eassumption|];
      cbn [playwright_instance browser_context context_page global_a1];
      rewrite ?Htoken; repeat split; in_events ].
Qed.

Lemma init_browser_trace E w :
  let i := init_browser E w in
  bootstrap_trace E w (run_world i) (run_events i)
  /\ (forall u, run_outcome i = Returned u ->
                bootstrapped E w (run_world i) (run_events i)).
Proof.
  cbv zeta. pose proof (wp_init_browser_trace E w) as H. unfold wp in H. cbn [app] in H.
  destruct (run_outcome (init_browser E w)) as [u|e].
  - destruct H. split; [assumption|]. intros _ _. assumption.
  - split; [assumption|]. discriminate.
Qed.

Lemma count_In p ev d : In ev d -> p ev = true -> 1 <= count p d.
Proof.
  unfold count. induction d as [|x d IH]; cbn [In List.filter]; [tauto|].
  intros [->|Hin] Hp.
  - rewrite Hp. cbn. lia.
  - specialize (IH Hin Hp). destruct (p x); cbn; lia.
Qed.

(** The events of a view, in any state. *)
Lemma wp_view_events E req (Q : response -> assertion) X w evs :
  (forall resp w' d,
     same_session w w' -> forallb is_view_event d = true -> Q resp w' (evs ++ d)) ->
  wp (view E req) Q X w evs.
Proof.
  intros H. unfold view.
  destruct (req_endpoint req);
    unfold sign_endpoint, health_check, get_a1, web_a1, index, not_found,
      framework_response, automatic_options.
  all: wp_run.
  all: try (apply wp_generate_sign; intros w1 d1 Hs1 Hf1 Hd1;
            pose proof (sign_events_are_view_events _ Hd1) as Hd1v;
            split; intros; wp_run).
  all: rewrite <- ?app_assoc;
    try (match goal with |- _ _ _ ?l => is_var l; rewrite <- (app_nil_r l) end);
    apply H;
    [ first [ assumption | repeat split ]
    | rewrite ?forallb_app;
      repeat match goal with Hx : forallb is_view_event _ = true |- _ => rewrite Hx end;
      reflexivity ].
Qed.

Lemma view_events_no_start d :
  forallb is_view_event d = true -> count is_start d = 0 /\ count is_goto d = 0.
Proof.
  unfold count. induction d as [|ev d IH]; cbn; [auto|].
  intros [Hev Hd]%andb_prop. destruct ev; try discriminate; cbn; auto.
Qed.

Lemma view_run E req w :
  same_session w (run_world (view E req w))
  /\ forallb is_view_event (run_events (view E req w)) = true.
Proof.
  destruct (wp_returns (view E req)
              (fun _ w' d => same_session w w' /\ forallb is_view_event d = true) w)
    as (resp & _ & H); [|exact H].
  apply wp_view_events. auto.
Qed.

(** ** The session after the bootstrap *)

(** Whatever the outside does, the calls of [init_browser] come in one
    order: the fetches of the script and the write, the start of the
    engine (always attempted, once), the launch, the context, the
    registration of the script, the page, the navigation to the home
    page, the pause of one second, the read of the cookies and, last, the
    assignment of the identity token.  The registration depends on what
    [download_stealth_js] returned: with a path, the page is created only
    after the script at that path has been registered; with [None],
    nothing is registered.  A run that returns has gone as far as the
    cookies. *)
Theorem init_browser_step_order E w :
  let i := init_browser E w in
  exists script ph,
    run_outcome (download_stealth_js E w) = Returned script
    /\ follow script Fetching (effects (run_events i)) = Some ph
    /\ count is_start (run_events i) = 1
    /\ (forall u, run_outcome i = Returned u -> ph = CookiesRead \/ ph = Assigned).
Proof.
  cbv zeta. destruct (init_browser_trace E w) as [(Hph & Hstart & _) Hret].
  destruct Hph as (script & ph & Hscript & Hph). exists script, ph.
  repeat split; try assumption.
  intros u Hu. destruct (Hret u Hu) as [(script' & ph' & Hscript' & Hph' & Hlast) _].
  congruence.
Qed.

(** When [init_browser] returns, the identity token is the value of the
    first cookie named a1 among those the context returned, or what it
    was before when there is none; the handles kept are those of the
    engine that was launched and of the page that was sent to the home
    page, and the cookies were read from the context kept. *)
Theorem init_browser_captures_first_a1 E w :
  run_outcome (init_browser E w) = Returned tt ->
  let i := init_browser E w in
  exists t pw ctx page cookies,
    context_cookies E t ctx = Returned cookies
    /\ global_a1 (run_world i) = default (global_a1 w) (first_a1 cookies)
    /\ playwright_instance (run_world i) = Some pw
    /\ browser_context (run_world i) = Some ctx
    /\ context_page (run_world i) = Some page
    /\ In (EvLaunch pw) (run_events i)
    /\ In (EvNewPage ctx) (run_events i)
    /\ In (EvGoto page home_url) (run_events i)
    /\ In (EvCookies ctx) (run_events i).
Proof.
  intros Hret. cbv zeta. destruct (init_browser_trace E w) as [_ H].
  destruct (H tt Hret) as [_ (t & pw & ctx & page & cookies & Hc & Hpw & Hctx & Hpage & Ha1 & Hin)].
  exists t, pw, ctx, page, cookies. tauto.
Qed.

Lemma init_browser_captures_first_a1_witness :
  run_outcome (init_browser calm (initial_world ∅)) = Returned tt
  /\ exists t pw ctx page cookies,
       context_cookies calm t ctx = Returned cookies
       /\ global_a1 (run_world (init_browser calm (initial_world ∅)))
          = default (global_a1 (initial_world ∅)) (first_a1 cookies)
       /\ playwright_instance (run_world (init_browser calm (initial_world ∅))) = Some pw
       /\ browser_context (run_world (init_browser calm (initial_world ∅))) = Some ctx
       /\ context_page (run_world (init_browser calm (initial_world ∅))) = Some page
       /\ In (EvLaunch pw) (run_events (init_browser calm (initial_world ∅)))
       /\ In (EvNewPage ctx) (run_events (init_browser calm (initial_world ∅)))
       /\ In (EvGoto page home_url) (run_events (init_browser calm (initial_world ∅)))
       /\ In (EvCookies ctx) (run_events (init_browser calm (initial_world ∅))).
Proof.
  split; [vm_compute; reflexivity|].
  apply (init_browser_captures_first_a1 calm (initial_world ∅)). vm_compute. reflexivity.
Defined.

(** The first request that reaches a process without a page runs the
    bootstrap; when it returns, GET /a1 and GET /web_a1 both answer 200
    with the whole token just captured: the value of the first cookie
    named a1, or the token the process had when there is none. *)
Theorem a1_views_report_captured_token E w json :
  context_page w = None ->
  run_outcome (init_browser E w) = Returned tt ->
  exists t ctx cookies,
    context_cookies E t ctx = Returned cookies
    /\ let token := default (global_a1 w) (first_a1 cookies) in
       run_outcome (handle_request E (Request GET_a1 json) w)
       = Returned (jsonify [("a1", PStr token)])
       /\ run_outcome (handle_request E (Request GET_web_a1 json) w)
          = Returned (jsonify [("web_a1", PStr token)])
       /\ global_a1 (run_world (handle_request E (Request GET_a1 json) w)) = token.
Proof.
  intros Hpage Hret.
  destruct (init_browser_trace E w) as [_ H].
  destruct (H tt Hret) as [_ (t & pw & ctx & page & cookies & Hc & _ & _ & _ & Ha1 & _)].
  exists t, ctx, cookies. split; [exact Hc|]. cbv zeta.
  pose proof (handle_request_uninitialized E (Request GET_a1 json) w Hpage) as H1.
  pose proof (handle_request_uninitialized E (Request GET_web_a1 json) w Hpage) as H2.
  cbv zeta in H1, H2. rewrite Hret in H1, H2.
  destruct H1 as (-> & -> & _). destruct H2 as (-> & _).
  unfold view, get_a1, web_a1, bind, get_world, log, emit, ret.
  cbn [req_endpoint run_outcome run_world run_events]. rewrite Ha1. auto.
Qed.

Lemma a1_views_report_captured_token_witness :
  run_outcome (handle_request calm (Request GET_a1 (Returned PNone)) (initial_world ∅))
  = Returned (jsonify [("a1", PStr "18c0ffee")]).
Proof.
  destruct (a1_views_report_captured_token calm (initial_world ∅) (Returned PNone))
    as (t & ctx & cookies & Hc & H1 & _).
  - reflexivity.
  - vm_compute. reflexivity.
  - cbv zeta in H1. rewrite H1. vm_compute in Hc.
    injection Hc as <-. reflexivity.
Defined.

(** A bootstrap that stops before it has a page (no navigation was
    attempted) has raised and leaves the process without a page and with
    the token it had: the next request, whatever it is, runs the bootstrap
    again, and starts the engine once more. *)
Theorem init_failure_before_page_is_retried E w req :
  context_page w = None ->
  count is_goto (run_events (init_browser E w)) = 0 ->
  let i := init_browser E w in
  let r := handle_request E req (run_world i) in
  (exists e, run_outcome i = Raised e)
  /\ context_page (run_world i) = None
  /\ global_a1 (run_world i) = global_a1 w
  /\ count is_start (run_events r) = 1.
Proof.
  intros Hpage Hgoto. cbv zeta.
  destruct (init_browser_trace E w) as [(_ & _ & Hearly & _) Hret].
  destruct (Hearly Hgoto) as [Hp Ha1]. rewrite Hpage in Hp.
  assert (Hraised : exists e, run_outcome (init_browser E w) = Raised e).
  { destruct (run_outcome (init_browser E w)) as [u|e] eqn:Hout; [|now exists e].
    destruct (Hret u eq_refl) as [_ (t & pw & ctx & page & cookies & _ & _ & _ & Hp' & _)].
    congruence. }
  repeat split; try assumption.
  set (w1 := run_world (init_browser E w)) in *.
  pose proof (handle_request_uninitialized E req w1 Hp) as H. cbv zeta in H.
  destruct (init_browser_trace E w1) as [(_ & Hstart & _) _].
  destruct (view_run E req (run_world (init_browser E w1))) as [_ Hv].
  destruct (view_events_no_start _ Hv) as [Hvs _].
  destruct (run_outcome (init_browser E w1)) as [u|e];
    destruct H as (_ & _ & ->);
    change (EvLog WARNING :: ?l) with ([EvLog WARNING] ++ l);
    rewrite !count_app, Hstart, ?Hvs; reflexivity.
Qed.

Lemma init_failure_before_page_is_retried_witness :
  context_page (initial_world ∅) = None
  /\ count is_start
       (run_events (handle_request no_browser (Request GET_health (Returned PNone))
                      (run_world (init_browser no_browser (initial_world ∅))))) = 1.
Proof.
  split; [reflexivity|].
  apply (init_failure_before_page_is_retried no_browser (initial_world ∅)
           (Request GET_health (Returned PNone))); reflexivity.
Defined.

(** ** The degraded mode *)

Lemma degraded_events_counts d :
  forallb is_degraded_event d = true ->
  count is_evaluate d = 0 /\ count is_goto d = 0 /\ count is_assign d = 0.
Proof.
  unfold count. induction d as [|ev d IH]; cbn; [auto|].
  intros [Hev Hd]%andb_prop. destruct ev; try discriminate; cbn; auto.
Qed.

Lemma download_events_degraded d :
  forallb is_download_event d = true -> forallb is_degraded_event d = true.
Proof.
  unfold is_degraded_event. induction d as [|ev d IH]; cbn; [reflexivity|].
  intros [-> Hd]%andb_prop. cbn. auto.
Qed.

Section CannotStart.
Variable E : Env.
Hypothesis Hstart : forall t, exists e, sync_playwright_start E t = Raised e.

Ltac wp_start :=
  lazymatch goal with
  | |- match sync_playwright_start E ?t with _ => _ end =>
      let e := fresh "e" in destruct (Hstart t) as [e ->]
  | |- _ => wp_step
  end.

(** While the engine cannot start, [init_browser] raises after the start
    was attempted, and nothing of the session is assigned. *)
Lemma wp_init_browser_cannot_start (Q : unit -> assertion) X w evs :
  (forall e w' d, same_session w w' -> count is_start d = 1 ->
                  forallb is_degraded_event d = true -> X e w' (evs ++ d)) ->
  wp (init_browser E) Q X w evs.
Proof.
  intros H. unfold init_browser.
  wp_step. do 3 (wp_step; wp_step). wp_step.
  apply wp_download_stealth_js. intros stealth w1 d1 (Hpw & Hctx & Hpage & Ha1) Hd1.
  pose proof (download_events_degraded _ Hd1) as Hd1d.
  destruct (download_events_no_goto _ Hd1) as [_ Hd1s].
  destruct w1 as [pw1 ctx1 page1 a1 fs1 t1]. cbn in Hpw, Hctx, Hpage, Ha1. subst.
  repeat (wp_simpl; wp_start).
  all: wp_simpl; rewrite <- ?app_assoc; apply H;
    [ repeat split
    | rewrite ?count_app, ?Hd1s; reflexivity
    | rewrite ?forallb_app, ?Hd1d; reflexivity ].
Qed.

Lemma wp_handle_request_cannot_start req (Q : response -> assertion) X w evs :
  context_page w = None ->
  (forall e w' d, same_session w w' -> count is_start d = 1 ->
                  forallb is_degraded_event d = true ->
                  Q (server_error E e) w' (evs ++ d)) ->
  wp (handle_request E req) Q X w evs.
Proof.
  intros Hpage H. unfold handle_request, ensure_browser.
  do 4 wp_step. cbv beta. rewrite Hpage. do 2 wp_step. cbv beta.
  apply wp_init_browser_cannot_start. intros e w1 d1 Hs1 Hc1 Hd1.
  unfold internal_error. wp_run. rewrite <- !app_assoc. apply H.
  - exact Hs1.
  - rewrite !count_app, Hc1. reflexivity.
  - rewrite !forallb_app, Hd1. reflexivity.
Qed.

Lemma wp_serve_cannot_start reqs : forall w evs,
  context_page w = None ->
  wp (serve E reqs)
     (fun resps w' evs' =>
        same_session w w'
        /\ length resps = length reqs
        /\ Forall (fun resp => status resp = 500) resps
        /\ count is_start evs' = count is_start evs + length reqs
        /\ (forallb is_degraded_event evs = true ->
            forallb is_degraded_event evs' = true))
     (fun _ _ _ => False) w evs.
Proof.
  induction reqs as [|req rest IH]; intros w evs Hpage; cbn [serve].
  - wp_step. repeat split; auto; cbn; lia.
  - wp_step. apply wp_handle_request_cannot_start; [assumption|].
    intros e w1 d1 Hs1 Hc1 Hd1. wp_step.
    assert (Hpage1 : context_page w1 = None).
    { destruct Hs1 as (_ & _ & -> & _). assumption. }
    apply (wp_conseq_returns (serve E rest) _ _ _ _ _ (IH w1 (evs ++ d1) Hpage1)).
    intros resps w2 evs2 (Hs2 & Hlen & Hall & Hc2 & Hd2). wp_step.
    repeat split; try (apply (same_session_trans _ _ _ Hs1 Hs2)).
    + cbn [length]. now rewrite Hlen.
    + constructor; [reflexivity|assumption].
    + rewrite Hc2, count_app, Hc1. cbn [length]. lia.
    + intros Hevs. apply Hd2. now rewrite forallb_app, Hevs, Hd1.
Qed.

End CannotStart.

(** While the engine cannot start, the server runs in degraded mode: the
    start-up does not fail, every request of a run (the health check
    included) is answered 500 by the application-wide handler, each
    request tries to start the engine once more, nothing is ever launched,
    navigated or evaluated, and the process stays without a page and with
    the token it had. *)
Theorem serve_degraded_retries_start E reqs : forall w,
  (forall t, exists e, sync_playwright_start E t = Raised e) ->
  context_page w = None ->
  let m := main_init E w in
  let r := serve E reqs (run_world m) in
  run_outcome m = Returned tt
  /\ same_session w (run_world m)
  /\ exists resps,
       run_outcome r = Returned resps
       /\ length resps = length reqs
       /\ Forall (fun resp => status resp = 500) resps
       /\ count is_start (run_events r) = length reqs
       /\ forallb is_degraded_event (run_events r) = true
       /\ same_session w (run_world r).
Proof.
  intros w Hstart Hpage. cbv zeta.
  destruct (wp_returns (main_init E) (fun _ w' _ => same_session w w') w)
    as ([] & Hm & Hs).
  { unfold main_init. wp_step. apply wp_init_browser_cannot_start; [assumption|].
    intros e w1 d1 Hs1 _ _. wp_run. exact Hs1. }
  split; [exact Hm|]. split; [exact Hs|].
  assert (Hpage1 : context_page (run_world (main_init E w)) = None).
  { destruct Hs as (_ & _ & -> & _). assumption. }
  destruct (wp_returns _ _ _ (wp_serve_cannot_start E Hstart reqs _ [] Hpage1))
    as (resps & Hout & Hs2 & Hlen & Hall & Hc & Hd).
  exists resps. repeat split; auto; try (apply (same_session_trans _ _ _ Hs Hs2)).
Qed.

Lemma serve_degraded_retries_start_witness :
  let reqs := [Request GET_health (Returned PNone);
               Request POST_sign (Returned (PDict [("uri", PStr "/api")]));
               Request GET_a1 (Returned PNone)] in
  context_page (initial_world ∅) = None
  /\ exists resps,
       run_outcome (serve no_browser reqs (run_world (main_init no_browser (initial_world ∅))))
       = Returned resps
       /\ Forall (fun resp => status resp = 500) resps.
Proof.
  cbv zeta. split; [reflexivity|].
  destruct (serve_degraded_retries_start no_browser
              [Request GET_health (Returned PNone);
               Request POST_sign (Returned (PDict [("uri", PStr "/api")]));
               Request GET_a1 (Returned PNone)] (initial_world ∅))
    as (_ & _ & resps & Hout & _ & Hall & _).
  - intros t. eexists. reflexivity.
  - reflexivity.
  - exists resps. split; assumption.
Defined.

(** ** The asset fetcher, with a mirror that serves *)

Lemma stealth_js_on_disk E w :
  is_Some (files w !! stealth_js_path) ->
  download_stealth_js E w = Run w [EvLog INFO] (Returned (Some stealth_js_path)).
Proof.
  intros Hsome. unfold download_stealth_js, bind, path_exists, log, emit, ret.
  cbn [run_outcome run_world run_events].
  rewrite bool_decide_eq_true_2 by exact Hsome.
  cbn [run_outcome run_world run_events app]. reflexivity.
Qed.

Lemma stealth_js_not_on_disk E w :
  files w !! stealth_js_path = None ->
  download_stealth_js E w = download_loop E 0 cdn_urls w.
Proof.
  intros Hnone. unfold download_stealth_js, bind, path_exists.
  cbn [run_outcome run_world run_events].
  rewrite bool_decide_eq_false_2 by (rewrite Hnone; now intros [? ?]).
  cbn [app]. apply run_eta.
Qed.

Section Mirror.
Variable E : Env.
Variables (idx : nat) (url text : string) (w : world).
Hypothesis Hget : requests_get E (ticks w) url = Returned text.
Hypothesis Hlen : 100 <= String.length text.

Ltac wp_mirror Hwrite :=
  repeat (wp_simpl;
          first [ rewrite Hget | rewrite Hwrite
                | rewrite (proj2 (Nat.ltb_ge (String.length text) 100) Hlen)
                | wp_step ]).

(** A mirror that serves, and a disk that takes the script. *)
Lemma download_from_usable :
  file_write E (S (ticks w)) stealth_js_path text = Written ->
  download_from E idx url w
  = Run (World (playwright_instance w) (browser_context w) (context_page w)
               (global_a1 w) (<[stealth_js_path := text]> (files w)) (S (S (ticks w))))
        [EvLog INFO; EvLog INFO; EvHttpGet url; EvFileWrite stealth_js_path text;
         EvLog INFO]
        (Returned (Some stealth_js_path)).
Proof.
  intros Hwrite. apply wp_exact. unfold download_from. wp_mirror Hwrite.
  repeat split.
Qed.

(** A mirror that serves, and a write that fails: the exception is caught,
    and the loop goes on with what the write left on disk. *)
Lemma download_from_write_fails e left_behind :
  file_write E (S (ticks w)) stealth_js_path text = WriteFailed e left_behind ->
  run_outcome (download_from E idx url w) = Returned None
  /\ run_world (download_from E idx url w)
     = World (playwright_instance w) (browser_context w) (context_page w) (global_a1 w)
             (match left_behind with
              | Some partial => <[stealth_js_path := partial]> (files w)
              | None => files w
              end) (S (S (ticks w)))
  /\ count is_http (run_events (download_from E idx url w)) = 1
  /\ count is_file_write (run_events (download_from E idx url w)) = 1.
Proof.
  intros Hwrite.
  destruct (wp_returns (download_from E idx url)
              (fun r w' d => r = None
                 /\ w' = World (playwright_instance w) (browser_context w) (context_page w)
                               (global_a1 w)
                               (match left_behind with
                                | Some partial => <[stealth_js_path := partial]> (files w)
                                | None => files w
                                end) (S (S (ticks w)))
                 /\ count is_http d = 1 /\ count is_file_write d = 1) w)
    as (r & -> & -> & Hw & Hcount); [|auto].
  unfold download_from. wp_mirror Hwrite; repeat split.
Qed.

End Mirror.

(** The loop stops at the first mirror that serves. *)
Lemma download_loop_first_usable E text urls : forall k idx w url,
  urls !! k = Some url ->
  (forall i u, i < k -> urls !! i = Some u ->
               mirror_unusable (requests_get E (i + ticks w) u) = true) ->
  requests_get E (k + ticks w) url = Returned text ->
  100 <= String.length text ->
  file_write E (S k + ticks w) stealth_js_path text = Written ->
  let r := download_loop E idx urls w in
  run_outcome r = Returned (Some stealth_js_path)
  /\ same_session w (run_world r)
  /\ files (run_world r) = <[stealth_js_path := text]> (files w)
  /\ count is_http (run_events r) = S k
  /\ count is_file_write (run_events r) = 1
  /\ In (EvFileWrite stealth_js_path text) (run_events r).
Proof.
  induction urls as [|u0 rest IH]; intros k idx w url Hk Hbad Hget Hlen Hwrite; cbv zeta;
    [destruct k; discriminate|].
  cbn [download_loop]. destruct k as [|k].
  - injection Hk as ->. cbn [Nat.add] in Hget, Hwrite.
    pose proof (download_from_usable E idx url text w Hget Hlen Hwrite) as Hrun.
    rewrite (bind_returned _ _ _ (Some stealth_js_path)) by now rewrite Hrun.
    rewrite Hrun. cbn [run_outcome run_world run_events ret files app].
    repeat split. cbn. tauto.
  - destruct (download_from_unusable E idx u0 w (Hbad 0 u0 ltac:(lia) eq_refl))
      as (Hout & Hw & Hhttp & Hfw).
    rewrite (bind_returned _ _ _ _ Hout). cbn [run_outcome run_world run_events].
    rewrite Hw.
    destruct (IH k (S idx) (tick w) url Hk) as (Hout' & Hs' & Hfiles' & Hhttp' & Hfw' & Hin').
    { intros i u Hi Hu. cbn [tick ticks].
      replace (i + S (ticks w)) with (S i + ticks w) by lia.
      apply (Hbad (S i) u); [lia|exact Hu]. }
    { cbn [tick ticks]. now replace (k + S (ticks w)) with (S k + ticks w) by lia. }
    { exact Hlen. }
    { cbn [tick ticks]. now replace (S k + S (ticks w)) with (S (S k) + ticks w) by lia. }
    rewrite !count_app, Hhttp, Hfw, Hhttp', Hfw', Hout', Hfiles'.
    repeat split; try apply Hs'. apply in_or_app. now right.
Qed.

(** With no script on disk, the mirrors are tried in order and the first
    one that answers with at least 100 characters ends the search: what
    it served is written at the path of the script, the path is returned,
    the session is untouched, one fetch was made per mirror tried and one
    write in all; and every later call, whatever the outside is by then,
    returns the path at once, without any fetch or write. *)
Theorem download_stealth_js_first_usable_mirror E w k url text :
  files w !! stealth_js_path = None ->
  cdn_urls !! k = Some url ->
  (forall i u, i < k -> cdn_urls !! i = Some u ->
               mirror_unusable (requests_get E (i + ticks w) u) = true) ->
  requests_get E (k + ticks w) url = Returned text ->
  100 <= String.length text ->
  file_write E (S k + ticks w) stealth_js_path text = Written ->
  let r := download_stealth_js E w in
  run_outcome r = Returned (Some stealth_js_path)
  /\ same_session w (run_world r)
  /\ files (run_world r) = <[stealth_js_path := text]> (files w)
  /\ count is_http (run_events r) = S k
  /\ count is_file_write (run_events r) = 1
  /\ In (EvFileWrite stealth_js_path text) (run_events r)
  /\ forall E', download_stealth_js E' (run_world r)
                = Run (run_world r) [EvLog INFO] (Returned (Some stealth_js_path)).
Proof.
  intros Hnone Hk Hbad Hget Hlen Hwrite. cbv zeta.
  rewrite (stealth_js_not_on_disk E w Hnone).
  destruct (download_loop_first_usable E text cdn_urls k 0 w url Hk Hbad Hget Hlen Hwrite)
    as (Hout & Hs & Hfiles & Hhttp & Hfw & Hin).
  repeat split; try assumption; try apply Hs.
  intros E'. apply stealth_js_on_disk. rewrite Hfiles, lookup_insert_eq. eauto.
Qed.

Lemma download_stealth_js_first_usable_mirror_witness :
  let r := download_stealth_js second_mirror_serves (initial_world ∅) in
  100 <= String.length stealth_text
  /\ run_outcome r = Returned (Some stealth_js_path)
  /\ files (run_world r) = <[stealth_js_path := stealth_text]> ∅
  /\ count is_http (run_events r) = 2.
Proof.
  cbv zeta.
  assert (Hlen : 100 <= String.length stealth_text) by (vm_compute; lia).
  split; [exact Hlen|].
  destruct (download_stealth_js_first_usable_mirror second_mirror_serves (initial_world ∅) 1
              "https://fastly.jsdelivr.net/gh/requireCool/stealth.min.js/stealth.min.js"
              stealth_text)
    as (Hout & _ & Hfiles & Hhttp & _); try reflexivity.
  - intros [|i] u Hi Hu; [|lia]. injection Hu as <-. reflexivity.
  - exact Hlen.
  - auto.
Defined.

(** A write that fails is caught like a failed fetch and the search goes
    on; but the file it created stays.  When the first mirror serves, the
    write fails leaving a partial file, and the other mirrors are
    unusable, the call returns [None] (the bootstrap goes on without the
    script), and every later call takes the partial file for the script:
    it returns the path without fetching anything. *)
Theorem download_failed_write_leaves_stale_script E w url rest text e partial :
  files w !! stealth_js_path = None ->
  cdn_urls = url :: rest ->
  requests_get E (ticks w) url = Returned text ->
  100 <= String.length text ->
  file_write E (S (ticks w)) stealth_js_path text = WriteFailed e (Some partial) ->
  (forall i u, rest !! i = Some u ->
               mirror_unusable (requests_get E (i + (2 + ticks w)) u) = true) ->
  let r := download_stealth_js E w in
  run_outcome r = Returned None
  /\ files (run_world r) = <[stealth_js_path := partial]> (files w)
  /\ count is_http (run_events r) = 3
  /\ count is_file_write (run_events r) = 1
  /\ forall E', download_stealth_js E' (run_world r)
                = Run (run_world r) [EvLog INFO] (Returned (Some stealth_js_path)).
Proof.
  intros Hnone Hurls Hget Hlen Hwrite Hbad. cbv zeta.
  rewrite (stealth_js_not_on_disk E w Hnone).
  pose proof (f_equal (@length _) Hurls) as Hthree. cbn in Hthree.
  rewrite Hurls. cbn [download_loop].
  destruct (download_from_write_fails E 0 url text w Hget Hlen e (Some partial) Hwrite)
    as (Hout & Hw & Hhttp & Hfw).
  rewrite (bind_returned _ _ _ _ Hout). cbn [run_outcome run_world run_events].
  rewrite Hw.
  match goal with |- context [download_loop E 1 rest ?w1] =>
    destruct (download_loop_unusable E rest 1 w1 Hbad) as (Hout' & Hfiles' & Hhttp' & Hfw')
  end.
  cbv zeta in Hout', Hfiles', Hhttp', Hfw'.
  rewrite !count_app, Hhttp, Hfw, Hhttp', Hfw', Hout', Hfiles'. cbn [files].
  repeat split; try lia.
  intros E'. apply stealth_js_on_disk. rewrite Hfiles'. cbn [files].
  rewrite lookup_insert_eq. eauto.
Qed.

Lemma download_failed_write_leaves_stale_script_witness :
  let r := download_stealth_js disk_full (initial_world ∅) in
  run_outcome r = Returned None
  /\ files (run_world r) = <[stealth_js_path := ""]> ∅
  /\ run_outcome (download_stealth_js calm (run_world r)) = Returned (Some stealth_js_path).
Proof.
  cbv zeta.
  destruct (download_failed_write_leaves_stale_script disk_full (initial_world ∅)
              "https://cdn.jsdelivr.net/gh/requireCool/stealth.min.js/stealth.min.js"
              [ "https://fastly.jsdelivr.net/gh/requireCool/stealth.min.js/stealth.min.js";
                "https://raw.githubusercontent.com/requireCool/stealth.min.js/main/stealth.min.js" ]
              stealth_text (Exn "OSError" "[Errno 28] No space left on device") "")
    as (Hout & Hfiles & _ & _ & Hnext); try reflexivity.
  - vm_compute. lia.
  - intros [|[|i]] u Hu; try discriminate; injection Hu as <-; reflexivity.
  - rewrite (Hnext calm). auto.
Defined.

(** ** The asset fetcher, whatever the outside does *)

Lemma stored_trans w w1 w2 d1 d2 r :
  stored w w1 None d1 -> stored w1 w2 r d2 -> stored w w2 r (d1 ++ d2).
Proof.
  intros (_ & Hother1 & Hsame1 & Hle1) (Hres2 & Hother2 & Hsame2 & Hle2).
  unfold stored. rewrite !count_app. split; [|split; [|split]].
  - exact Hres2.
  - intros p Hp. now rewrite Hother2, Hother1.
  - intros Hzero. rewrite Hsame2, Hsame1; [reflexivity|lia|lia].
  - lia.
Qed.

Lemma wp_download_from_stored E idx url (Q : option string -> assertion) X w evs :
  (forall r w' d, same_session w w' -> stored w w' r d -> count is_http d <= 1 ->
                  Q r w' (evs ++ d)) ->
  wp (download_from E idx url) Q X w evs.
Proof.
  intros H. unfold download_from. wp_run.
  all: rewrite <- ?app_assoc; apply H;
    [ repeat split
    | unfold stored, count;
      cbn [List.filter app length is_file_write is_http files tick];
      split; [|split; [|split]]
    | unfold count; cbn [List.filter app length is_http]; lia ].
  all: try lia.
  all: try (intros q Hq;
            first [ discriminate Hq
                  | injection Hq as <-; split;
                    [reflexivity|rewrite lookup_insert_eq; eauto] ]).
  all: try (intros Hzero; first [ discriminate Hzero | reflexivity ]).
  all: intros q Hq;
    repeat match goal with
           | |- context [match ?o with Some _ => _ | None => _ end] => destruct o
           end;
    rewrite ?lookup_insert_ne by congruence; reflexivity.
Qed.

Lemma wp_download_loop_stored E urls : forall idx (Q : option string -> assertion) X w evs,
  (forall r w' d, same_session w w' -> stored w w' r d ->
                  count is_http d <= length urls -> Q r w' (evs ++ d)) ->
  wp (download_loop E idx urls) Q X w evs.
Proof.
  induction urls as [|url rest IH]; intros idx Q X w evs H; cbn [download_loop].
  - wp_run. rewrite <- ?app_assoc. apply H; [repeat split| |cbn; lia].
    unfold stored, count. cbn. split; [|split; [|split]]; try discriminate; auto.
  - wp_step. apply wp_download_from_stored. intros [path|] w1 d1 Hs1 Hst1 Hn1.
    + wp_step. rewrite <- (app_nil_r d1) at 1. apply H; [assumption| |cbn [length]; rewrite app_nil_r; lia].
      now rewrite app_nil_r.
    + apply IH. intros r w2 d2 Hs2 Hst2 Hn2. rewrite <- app_assoc. apply H.
      * exact (same_session_trans _ _ _ Hs1 Hs2).
      * exact (stored_trans _ _ _ _ _ _ Hst1 Hst2).
      * rewrite count_app. cbn [length]. lia.
Qed.

(** [download_stealth_js] never raises, whatever the mirrors and the disk
    do: a failed fetch, a short answer and a failed write are all caught.
    It leaves the session alone, does nothing but log, fetch and write,
    makes at most three fetches and never more writes than fetches, and
    touches no path but that of the script.  When it returns a path, it is
    that of the script and the file is there, so that every later call
    returns at once without any fetch; when it wrote nothing, the files
    are as they were. *)
Theorem download_stealth_js_never_raises E w :
  let r := download_stealth_js E w in
  exists res,
    run_outcome r = Returned res
    /\ same_session w (run_world r)
    /\ forallb is_download_event (run_events r) = true
    /\ count is_http (run_events r) <= 3
    /\ count is_file_write (run_events r) <= count is_http (run_events r)
    /\ (forall p, p <> stealth_js_path -> files (run_world r) !! p = files w !! p)
    /\ (count is_file_write (run_events r) = 0 -> files (run_world r) = files w)
    /\ (forall p, res = Some p ->
          p = stealth_js_path
          /\ forall E', download_stealth_js E' (run_world r)
                        = Run (run_world r) [EvLog INFO] (Returned (Some stealth_js_path))).
Proof.
  cbv zeta.
  destruct (wp_returns (download_stealth_js E)
              (fun _ w' d => same_session w w' /\ forallb is_download_event d = true) w)
    as (res0 & Hout0 & Hs & Hev).
  { apply wp_download_stealth_js. auto. }
  destruct (wp_returns (download_stealth_js E)
              (fun res w' d => stored w w' res d /\ count is_http d <= 3) w)
    as (res & Hout & (Hres & Hother & Hsame & Hle) & Hn).
  { unfold download_stealth_js. wp_step. wp_step. cbv beta.
    destruct (bool_decide_reflect (is_Some (files w !! stealth_js_path))) as [Hsome|Hnone].
    - wp_run. split; [|cbn; lia]. unfold stored, count. cbn.
      split; [|split; [|split]]; auto.
      intros p Hp. injection Hp as <-. split; [reflexivity|exact Hsome].
    - apply wp_download_loop_stored. intros r w' d _ Hst Hn. cbn [app]. split; assumption. }
  exists res. repeat split; try assumption; try apply Hs.
  - now apply Hres.
  - intros E'. apply stealth_js_on_disk. now apply (Hres p).
Qed.

(** ** The health view and the identity token *)

Lemma string_length_append (s1 s2 : string) :
  String.length (s1 ++ s2)%string = String.length s1 + String.length s2.
Proof. induction s1 as [|c s1 IH]; simpl; [reflexivity|now rewrite IH]. Qed.

Lemma string_take_length n : forall s,
  String.length (string_take n s) = Nat.min n (String.length s).
Proof.
  induction n as [|n IH]; intros [|c s]; simpl; try reflexivity. now rewrite IH.
Qed.

Lemma string_take_prefix n : forall s, exists rest, s = (string_take n s ++ rest)%string.
Proof.
  induction n as [|n IH]; intros s.
  - exists s. now destruct s.
  - destruct s as [|c s]; [now exists EmptyString|].
    destruct (IH s) as [rest Hrest]. exists rest. rewrite Hrest at 1. reflexivity.
Qed.

(** The health view shows at most the first 20 characters of the identity
    token, followed by three dots, and the empty string when there is no
    token: its [a1] field is never longer than 23 characters, whatever the
    token.  It reads the clock once and leaves the session alone. *)
Theorem health_check_previews_token E w :
  let r := health_check E w in
  exists resp preview,
    run_outcome r = Returned resp
    /\ field resp "a1" = Some (PStr preview)
    /\ String.length preview <= 23
    /\ (preview = "" <-> global_a1 w = "")
    /\ (global_a1 w <> "" ->
        exists shown rest,
          preview = (shown ++ "...")%string /\ global_a1 w = (shown ++ rest)%string
          /\ String.length shown = Nat.min 20 (String.length (global_a1 w)))
    /\ field resp "timestamp" = Some (PFloat (time_time E (ticks w)))
    /\ run_events r = [EvClock]
    /\ same_session w (run_world r).
Proof.
  cbv zeta. unfold health_check, bind, get_world, external, ret.
  cbn [run_outcome run_world run_events app tick].
  eexists _, _. split; [reflexivity|]. unfold field.
  cbn [body dict_lookup String.eqb Ascii.eqb Bool.eqb].
  split; [reflexivity|].
  destruct (String.eqb_spec (global_a1 w) "") as [Hempty|Hfull]; cbn [negb].
  - repeat split; try (cbn; lia); try tauto; try now destruct w.
  - destruct (string_take_prefix 20 (global_a1 w)) as [rest Hrest].
    split; [|split; [split|split; [|split; [|split]]]]; try now destruct w.
    + rewrite string_length_append, string_take_length.
      change (String.length "...") with 3. lia.
    + intros Hp. apply (f_equal String.length) in Hp.
      rewrite string_length_append in Hp. change (String.length "...") with 3 in Hp.
      change (String.length "") with 0 in Hp. lia.
    + intros _. exists (string_take 20 (global_a1 w)), rest.
      repeat split; [exact Hrest|apply string_take_length].
Qed.
